(** * OpenRLHF: reward and critic models with a value head

    A shallow embedding of [openrlhf/models/model.py]:
    [get_llm_for_sequence_regression], [_get_reward_model] and
    [_get_critic_model], with the two [LLMForSequenceRegression] classes
    they build.

    Conventions of the embedding.
    - Tensor entries are rationals ([Q]).  A number written into a buffer
      is rounded to the buffer's dtype; the arithmetic of the forward
      passes is exact.
    - A 2-D tensor is a list of rows, a 3-D tensor a list of rows of
      vectors.  Operations along [dim=1] are written row by row.
    - Python exceptions are values of [exn]; a computation that may raise
      has type [result A].
    - Calls into transformers, peft, deepspeed and torch.distributed are
      fields of an environment record; the calls the function makes are
      recorded, in order, in a trace of events. *)

From Stdlib Require Import QArith Qreals Reals Lra.
From stdpp Require Import gmap strings list.

(** ** Python runtime *)

Module Py.

(** The exceptions the module can meet; all derive from [Exception]. *)
Inductive exn : Type :=
| AssertionError (msg : string)
| AttributeError
| KeyError
| ValueError
| IndexError
| TypeError
| ZeroDivisionError
| RuntimeError
| OSError (msg : string).

Inductive result (A : Type) : Type :=
| Ok (a : A)
| Raise (e : exn).
Arguments Ok {A} a.
Arguments Raise {A} e.

Definition bind {A B} (m : result A) (f : A -> result B) : result B :=
  match m with
  | Ok a => f a
  | Raise e => Raise e
  end.

Definition is_ok {A} (m : result A) : bool :=
  match m with Ok _ => true | Raise _ => false end.

(** A Python object that is either [None] or an [int]. *)
Inductive pyval : Type :=
| PyNone
| PyInt (n : Z).

(** The value of a configuration attribute that is meant to be a number:
    a number (a Python float, int or bool, by its exact value), or an
    object torch does not take for a number (a string, [None], a dict). *)
Inductive pyattr : Type :=
| PyNumber (q : Q)
| PyOther (repr : string).

(** [x is None] *)
Definition is_None (x : pyval) : bool :=
  match x with PyNone => true | PyInt _ => false end.

(** Unary minus: [-x]; [-None] is a [TypeError]. *)
Definition neg (x : pyval) : result Z :=
  match x with
  | PyNone => Raise TypeError
  | PyInt n => Ok (- n)%Z
  end.

(** [l[i]] with Python's negative indices. *)
Definition getitem {A} (l : list A) (i : Z) : result A :=
  let j := if (i <? 0)%Z then (i + Z.of_nat (length l))%Z else i in
  if (j <? 0)%Z then Raise IndexError
  else match l !! Z.to_nat j with
       | Some x => Ok x
       | None => Raise IndexError
       end.

(** The bound of a slice, as [slice.indices] computes it for step 1. *)
Definition slice_bound (len : nat) (i : Z) : nat :=
  let j := if (i <? 0)%Z then (i + Z.of_nat len)%Z else i in
  Z.to_nat (Z.min (Z.of_nat len) (Z.max 0 j)).

(** [l[start:]] *)
Definition slice_from {A} (start : Z) (l : list A) : list A :=
  drop (slice_bound (length l) start) l.

(** [l[:stop]] *)
Definition slice_to {A} (stop : Z) (l : list A) : list A :=
  take (slice_bound (length l) stop) l.

(** [str.split(sep)] for a non-empty separator: [cur] holds the
    characters of the current piece in reverse, [skip] the characters of
    a separator just matched that are still to be passed over. *)
Fixpoint split_aux (sep : string) (skip : nat) (cur : string) (s : string)
  : list string :=
  match s with
  | EmptyString => [String.rev cur]
  | String c s' =>
      match skip with
      | S k => split_aux sep k cur s'
      | O =>
          if String.prefix sep s
          then String.rev cur :: split_aux sep (String.length sep - 1) EmptyString s'
          else split_aux sep 0 (String c cur) s'
      end
  end.

Definition split (sep s : string) : list string := split_aux sep 0 EmptyString s.

End Py.

Import Py.

#[global] Instance result_bind : MBind result := fun A B f m => Py.bind m f.
#[global] Instance result_ret : MRet result := fun A a => Ok a.

(** ** Tensor operations *)

Module Torch.

(** [2 ** k] for an integer [k]. *)
Definition pow2 (k : Z) : Q :=
  if (0 <=? k)%Z then inject_Z (2 ^ k) else (/ inject_Z (2 ^ (- k)))%Q.

(** [floor (log2 (n / d))] for positive [n] and [d]. *)
Definition ilog2 (n d : Z) : Z :=
  let e0 := (Z.log2 n - Z.log2 d)%Z in
  let below := if (0 <=? e0)%Z then (2 ^ e0 * d <=? n)%Z
               else (d <=? n * 2 ^ (- e0))%Z in
  if below then e0 else (e0 - 1)%Z.

(** [n / d] rounded to the nearest integer, ties to even, for [n >= 0] and
    [d > 0]. *)
Definition round_half_even (n d : Z) : Z :=
  let q := (n / d)%Z in
  let r := (n mod d)%Z in
  if (2 * r <? d)%Z then q
  else if (d <? 2 * r)%Z then (q + 1)%Z
  else if Z.even q then q else (q + 1)%Z.

(** Rounding to the nearest number of a binary floating-point format with
    [prec] bits of precision whose smallest positive number is
    [2 ** emin], ties to even.  The result is in lowest terms. *)
Definition round_float (prec emin : Z) (q : Q) : Q :=
  let n := Qnum q in
  let d := Zpos (Qden q) in
  if (n =? 0)%Z then 0%Q
  else
    let a := Z.abs n in
    let e := ilog2 a d in
    let k := Z.max (e - (prec - 1)) emin in
    let m := if (0 <=? k)%Z then round_half_even a (d * 2 ^ k)
             else round_half_even (a * 2 ^ (- k)) d in
    Qred (inject_Z (Z.sgn n * m) * pow2 k).

(** A floating-point dtype, by the number a tensor of that dtype holds
    after a number was written to it.  The buffers of the model are
    rationals: a number beyond the largest finite one of the dtype, which
    torch stores as an infinity, is outside the model. *)
Record dtype : Type := { to_dtype : Q -> Q }.

(** [torch.float32], the default dtype. *)
Definition float32 : dtype := {| to_dtype := round_float 24 (-149) |}.

(** [t[0] = v] for a tensor of one entry: the number is rounded to the
    tensor's dtype; an object that is not a number is a [TypeError]. *)
Definition setitem (dt : dtype) (v : pyattr) : result Q :=
  match v with
  | PyNumber q => Ok (to_dtype dt q)
  | PyOther _ => Raise TypeError
  end.

Definition dot (w h : list Q) : Q :=
  fold_right Qplus 0%Q (zip_with Qmult w h).

(** [nn.Linear(hidden_size, 1, bias=False)] applied to one hidden vector,
    followed by [squeeze(-1)]: a scalar.  A vector of another length than
    the weight is a shape error. *)
Definition linear (w h : list Q) : result Q :=
  if Nat.eqb (length w) (length h) then Ok (dot w h) else Raise RuntimeError.

(** [t.size(1)] of a 2-D tensor; a tensor of no rows is taken to have no
    columns. *)
Definition size1 {A} (t : list (list A)) : Z :=
  match t with
  | [] => 0
  | row :: _ => Z.of_nat (length row)
  end.

(** [t.fliplr()] *)
Definition fliplr {A} (t : list (list A)) : list (list A) := fmap reverse t.

(** The maximum of a non-empty row and the first index that holds it. *)
Fixpoint first_max (x : Z) (l : list Z) : Z * nat :=
  match l with
  | [] => (x, O)
  | y :: l' =>
      let '(m, i) := first_max y l' in
      if (m <=? x)%Z then (x, O) else (m, S i)
  end.

(** [row.argmax()]: the index of the first maximal entry; an empty
    reduction dimension is an error. *)
Definition argmax_row (row : list Z) : result Z :=
  match row with
  | [] => Raise IndexError
  | x :: l => Ok (Z.of_nat (snd (first_max x l)))
  end.

(** [t.argmax(dim=1, keepdim=True)]: one index per row. *)
Definition argmax (t : list (list Z)) : result (list Z) := mapM argmax_row t.

(** [values.gather(dim=1, index=index).squeeze(1)] for an index tensor of
    one column: the index may have fewer rows than [values], never more,
    and each index must lie in the row. *)
Fixpoint gather (values : list (list Q)) (index : list Z) : result (list Q) :=
  match index with
  | [] => Ok []
  | i :: index' =>
      match values with
      | [] => Raise RuntimeError
      | row :: values' =>
          x ← (if (i <? 0)%Z then Raise RuntimeError
                else match row !! Z.to_nat i with
                     | Some x => Ok x
                     | None => Raise RuntimeError
                     end);
          xs ← gather values' index';
          Ok (x :: xs)
      end
  end.

End Torch.

(** ** The model classes *)

(** What the backbone returns: [outputs["last_hidden_state"]], of shape
    batch x sequence x hidden. *)
Record Outputs : Type := { last_hidden_state : list (list (list Q)) }.

(** The backbone: token ids and an optional attention mask to outputs.  It
    may raise, and may behave differently in training mode (dropout). *)
Definition Backbone : Type :=
  bool -> list (list Z) -> option (list (list Z)) -> result Outputs.

(** The configuration object, with the attributes this module reads.  An
    attribute that may be absent is an [option]. *)
Record AutoConfig : Type := {
  config_class : string;
  hidden_size : Z;
  cfg_normalize_reward : option bool;
  cfg_mean : option pyattr;
  cfg_std : option pyattr;
  _attn_implementation : option string;
  auto_map : option (gmap string string);
  output_router_logits : option bool
}.

(** The state of an instance of either [LLMForSequenceRegression] class:
    the attributes [__init__] sets, and [nn.Module]'s [training] flag. *)
Record LLMForSequenceRegression : Type := {
  base_model : Backbone;
  value_head : list Q;
  normalize_reward : bool;
  mean : Q;
  std : Q;
  training : bool
}.

(** [nn.Module.train(mode)] *)
Definition train (mode : bool) (self : LLMForSequenceRegression)
  : LLMForSequenceRegression :=
  {| base_model := base_model self;
     value_head := value_head self;
     normalize_reward := normalize_reward self;
     mean := mean self;
     std := std self;
     training := mode |}.

(** [self.value_head(last_hidden_states).squeeze(-1)] *)
Definition project (w : list Q) (hs : list (list (list Q))) : result (list (list Q)) :=
  mapM (mapM (Torch.linear w)) hs.

(** [(x - self.mean) / self.std], broadcast over a tensor by the caller. *)
Definition standardize (self : LLMForSequenceRegression) (x : Q) : Q :=
  ((x - mean self) / std self)%Q.

(** Lines 144-158 and 202-216: the two [__init__] methods are the same
    text.  [super_init] is [base_pretrained_model.__init__], [base_llm_model]
    the backbone's class, [Linear] gives the weight a fresh
    [nn.Linear(hidden_size, 1, bias=False)] holds, and [default_dtype] is the
    dtype [torch.zeros(1)] and [torch.ones(1)] have when the method runs. *)
Definition init_common (super_init : AutoConfig -> result unit)
    (base_llm_model : AutoConfig -> result Backbone)
    (Linear : Z -> result (list Q)) (default_dtype : Torch.dtype)
    (config : AutoConfig) : result LLMForSequenceRegression :=
  _ ← super_init config;
  backbone ← base_llm_model config;
  w0 ← Linear (hidden_size config);
  nr ← (match cfg_normalize_reward config with
         | Some b => Ok b
         | None => Raise AttributeError
         end);
  let mean0 := 0%Q in
  let std0 := 1%Q in
  match cfg_mean config with
  | Some m =>
      mean1 ← Torch.setitem default_dtype m;
      s ← (match cfg_std config with
            | Some s => Ok s
            | None => Raise AttributeError
            end);
      std1 ← Torch.setitem default_dtype s;
      Ok {| base_model := backbone; value_head := w0; normalize_reward := nr;
            mean := mean1; std := std1; training := true |}
  | None =>
      Ok {| base_model := backbone; value_head := w0; normalize_reward := nr;
            mean := mean0; std := std0; training := true |}
  end.

Module RewardModel.

Inductive ret : Type :=
| Reward (reward : list Q)
| RewardOutputs (reward : list Q) (outputs : Outputs).

(** Lines 144-158. *)
Definition init := init_common.

(** Lines 167-193. *)
Definition forward (self : LLMForSequenceRegression)
    (input_ids : list (list Z)) (attention_mask : option (list (list Z)))
    (return_output : bool) : result ret :=
  outputs ← base_model self (training self) input_ids attention_mask;
  let last_hidden_states := last_hidden_state outputs in
  values ← project (value_head self) last_hidden_states;
  reward ←
    (if training self then
       mapM (fun row => Py.getitem row (-1)) values
     else
       am ← (match attention_mask with
              | Some am => Ok am
              | None => Raise AttributeError
              end);
       a ← Torch.argmax (Torch.fliplr am);
       let eos_indices := fmap (M:=list) (fun x => Torch.size1 am - 1 - x)%Z a in
       reward ← Torch.gather values eos_indices;
       if normalize_reward self
       then Ok (fmap (M:=list) (standardize self) reward)
       else Ok reward);
  if return_output then Ok (RewardOutputs reward outputs) else Ok (Reward reward).

End RewardModel.

Module CriticModel.

Inductive ret : Type :=
| Values (values : list (list Q))
| ValuesOutputs (values : list (list Q)) (outputs : Outputs)
| OnlyOutputs (outputs : Outputs).

(** Lines 202-216. *)
Definition init := init_common.

(** [action_mask.size(1)]: an attribute access on [None] raises. *)
Definition size_1 (action_mask : option (list (list Z))) : result pyval :=
  match action_mask with
  | Some t => Ok (PyInt (Torch.size1 t))
  | None => Raise AttributeError
  end.

(** [values[:, -num_actions:]] *)
Definition last_actions (num_actions : pyval) (values : list (list Q))
  : result (list (list Q)) :=
  start ← Py.neg num_actions;
  Ok (fmap (Py.slice_from start) values).

(** Lines 225-247. *)
Definition forward (self : LLMForSequenceRegression)
    (input_ids : list (list Z)) (action_mask : option (list (list Z)))
    (attention_mask : option (list (list Z)))
    (return_output : bool) : result ret :=
  outputs ← base_model self (training self) input_ids attention_mask;
  let last_hidden_states := last_hidden_state outputs in
  projected ← project (value_head self) last_hidden_states;
  let values := fmap (Py.slice_to (-1)) projected in
  num_actions ← size_1 action_mask;
  let values :=
    if normalize_reward self then fmap (fmap (standardize self)) values else values in
  if return_output then
    if Py.is_None num_actions then Ok (OnlyOutputs outputs)
    else
      v ← last_actions num_actions values;
      Ok (ValuesOutputs v outputs)
  else
    v ← last_actions num_actions values;
    Ok (Values v).

End CriticModel.

(** ** Construction *)

(** A class object of transformers or of a checkpoint's modelling file. *)
Definition pyclass : Type := string.

(** The class a factory returns: which factory made it, and the two
    classes it closes over. *)
Inductive cls_class : Type :=
| RewardClass (base_pretrained_model base_llm_model : pyclass)
| CriticClass (base_pretrained_model base_llm_model : pyclass).

Definition cls_llm (c : cls_class) : pyclass :=
  match c with RewardClass _ b | CriticClass _ b => b end.

Definition cls_pretrained (c : cls_class) : pyclass :=
  match c with RewardClass p _ | CriticClass p _ => p end.

Record LoraConfig : Type := {
  r : Z;
  lora_alpha_ : Z;
  target_modules_ : list string
}.

(** The calls the function makes outside this module, in order. *)
Inductive event : Type :=
| EvAutoConfigFromPretrained (path : string)
| EvPrint (msg : string)
| EvLoggerInfo (msg : string)
| EvGetClassFromDynamicModule (class_reference path : string)
| EvHfDeepSpeedConfig
| EvFromPretrained (cls : cls_class) (path : string)
| EvGetPeftModel (lora_config : LoraConfig)
| EvGatheredParameters (modifier_rank : Z)
| EvNormal (mean_ std_ : Q).

(** A computation that records events and may raise. *)
Record M (A : Type) : Type := mkM { trace : list event; outcome : result A }.
Arguments mkM {A} trace outcome.
Arguments trace {A} m.
Arguments outcome {A} m.

#[global] Instance M_ret : MRet M := fun A a => mkM [] (Ok a).
#[global] Instance M_bind : MBind M := fun A B f m =>
  match outcome m with
  | Ok a => mkM (trace m ++ trace (f a)) (outcome (f a))
  | Raise e => mkM (trace m) (Raise e)
  end.

Definition tell (ev : event) : M unit := mkM [ev] (Ok tt).
Definition lift {A} (x : result A) : M A := mkM [] x.

(** [try: body except Exception as e: handler e] *)
Definition try_except {A} (body : M A) (handler : exn -> M A) : M A :=
  match outcome body with
  | Ok _ => body
  | Raise e => mkM (trace body ++ trace (handler e)) (outcome (handler e))
  end.

(** [d[k]] on a dict. *)
Definition dict_get {V} (d : gmap string V) (k : string) : result V :=
  match d !! k with
  | Some v => Ok v
  | None => Raise KeyError
  end.

(** [a / b] on two ints. *)
Definition truediv (a b : Z) : result Q :=
  if (b =? 0)%Z then Raise ZeroDivisionError
  else Ok (inject_Z a / inject_Z b)%Q.

(** The libraries the function calls. *)
Record Env : Type := {
  (** [AutoConfig.from_pretrained(path, trust_remote_code=True)] *)
  AutoConfig_from_pretrained : string -> result AutoConfig;
  (** [AutoModel._model_mapping[type(config)]] *)
  AutoModel_model_mapping : string -> result pyclass;
  (** [cls.__base__] *)
  class_base : pyclass -> pyclass;
  (** executing a [class LLMForSequenceRegression(base)] statement *)
  class_statement : pyclass -> result unit;
  (** [get_class_from_dynamic_module(class_reference, path)] *)
  get_class_from_dynamic_module : string -> string -> result pyclass;
  (** [base_pretrained_model.__init__(config)], through [super()] *)
  pretrained_init : pyclass -> AutoConfig -> result unit;
  (** [base_llm_model(config)] *)
  new_backbone : pyclass -> AutoConfig -> result Backbone;
  (** the weight a fresh [nn.Linear(hidden_size, 1, bias=False)] holds *)
  linear_reset : Z -> result (list Q);
  (** the default dtype while [from_pretrained] builds the instance *)
  buffer_dtype : Torch.dtype;
  (** the checkpoint's weights for an instance: backbone and value head *)
  load_state_dict : string -> LLMForSequenceRegression -> result (Backbone * list Q);
  (** [find_all_linear_names(model)], from [openrlhf.models.utils] *)
  find_all_linear_names : LLMForSequenceRegression -> list string;
  (** [torch.distributed.get_rank()] *)
  get_rank : Z;
  (** the values [normal_(mean, std)] draws for a tensor of [n] entries *)
  normal_draw : Q -> Q -> nat -> list Q;
  (** the weight this process holds when [GatheredParameters] exits *)
  gathered_exit : list Q -> list Q
}.

(** The keyword arguments of [get_llm_for_sequence_regression]. *)
Module Kw.
Record t : Type := {
  bf16 : bool;
  lora_rank : Z;
  lora_alpha : Z;
  target_modules : option (list string);
  normalize_reward : bool;
  use_flash_attention_2 : bool;
  ds_config : option (gmap string (gmap string Z));
  init_value_head : bool
}.
End Kw.

(** What the function returns: the module, the class it is an instance
    of, [model.config], and the adapter when [get_peft_model] wrapped it. *)
Record Model : Type := {
  module : LLMForSequenceRegression;
  model_class : cls_class;
  config : AutoConfig;
  peft : option LoraConfig
}.

(** Lines 53-54. *)
Definition configure (normalize_reward use_flash_attention_2 : bool) (c : AutoConfig)
  : AutoConfig :=
  {| config_class := config_class c;
     hidden_size := hidden_size c;
     cfg_normalize_reward := Some normalize_reward;
     cfg_mean := cfg_mean c;
     cfg_std := cfg_std c;
     _attn_implementation :=
       Some (if use_flash_attention_2 then "flash_attention_2" else "eager")%string;
     auto_map := auto_map c;
     output_router_logits := output_router_logits c |}.

(** Line 110. *)
Definition set_output_router_logits (c : AutoConfig) : AutoConfig :=
  {| config_class := config_class c;
     hidden_size := hidden_size c;
     cfg_normalize_reward := cfg_normalize_reward c;
     cfg_mean := cfg_mean c;
     cfg_std := cfg_std c;
     _attn_implementation := _attn_implementation c;
     auto_map := auto_map c;
     output_router_logits := Some true |}.

Definition set_value_head (w : list Q) (self : LLMForSequenceRegression)
  : LLMForSequenceRegression :=
  {| base_model := base_model self;
     value_head := w;
     normalize_reward := normalize_reward self;
     mean := mean self;
     std := std self;
     training := training self |}.

Section Construction.

Variable env : Env.

(** Lines 140-195. *)
Definition _get_reward_model (base_pretrained_model base_llm_model : pyclass)
  : result cls_class :=
  _ ← class_statement env base_pretrained_model;
  Ok (RewardClass base_pretrained_model base_llm_model).

(** Lines 198-249. *)
Definition _get_critic_model (base_pretrained_model base_llm_model : pyclass)
  : result cls_class :=
  _ ← class_statement env base_pretrained_model;
  Ok (CriticClass base_pretrained_model base_llm_model).

(** Lines 59-62 and 87-90. *)
Definition make_class (model_type : string)
    (base_pretrained_class base_class : pyclass) : result cls_class :=
  if String.eqb model_type "reward"
  then _get_reward_model base_pretrained_class base_class
  else _get_critic_model base_pretrained_class base_class.

(** Lines 57-62: the body of the [try]. *)
Definition from_registry (model_type : string) (config : AutoConfig)
  : result cls_class :=
  base_class ← AutoModel_model_mapping env (config_class config);
  let base_pretrained_class := class_base env base_class in
  make_class model_type base_pretrained_class base_class.

(** Lines 65-79: the class names the handler derives. *)
Definition dynamic_names (config : AutoConfig)
  : result (string * string * string) :=
  am ← (match auto_map config with
        | Some am => Ok am
        | None => Raise AttributeError
        end);
  causal ← dict_get am "AutoModelForCausalLM";
  match Py.split "." causal with
  | [module_file; causal_model_name] =>
      if String.eqb causal_model_name "QWenLMHeadModel" then
        Ok (module_file, "QWenModel", "QWenPreTrainedModel")%string
      else if String.eqb causal_model_name "InternLMForCausalLM" then
        Ok (module_file, "InternLMModel", "InternLMPreTrainedModel")%string
      else
        auto_model_name ←
          (match am !! "AutoModel" with
           | None =>
               stem ← Py.getitem (Py.split "For" causal_model_name) 0;
               Ok (stem +:+ "Model")
           | Some v => Py.getitem (Py.split "." v) 1
           end);
        stem ← Py.getitem (Py.split "For" causal_model_name) 0;
        Ok (module_file, auto_model_name, stem +:+ "PreTrainedModel")
  | _ => Raise ValueError
  end.

(** Lines 64-90: the handler of the [except]. *)
Definition from_modelling_file (model_name_or_path model_type : string)
    (config : AutoConfig) : M cls_class :=
  _ ← tell (EvPrint "Failed to load from AutoModel, construct from modelling file.");
  '(module_file, auto_model_name, pretrained_model_name) ← lift (dynamic_names config);
  _ ← tell (EvLoggerInfo ("BASE_MODEL_CLASS: " +:+ auto_model_name +:+
                         ", PRETRAINED_MODEL_CLASS: " +:+ pretrained_model_name));
  _ ← tell (EvGetClassFromDynamicModule
             (module_file +:+ "." +:+ pretrained_model_name) model_name_or_path);
  base_pretrained_class ←
    lift (get_class_from_dynamic_module env
            (module_file +:+ "." +:+ pretrained_model_name) model_name_or_path);
  _ ← tell (EvGetClassFromDynamicModule
             (module_file +:+ "." +:+ auto_model_name) model_name_or_path);
  base_class ←
    lift (get_class_from_dynamic_module env
            (module_file +:+ "." +:+ auto_model_name) model_name_or_path);
  lift (make_class model_type base_pretrained_class base_class).

(** Lines 56-90. *)
Definition resolve_class (model_name_or_path model_type : string)
    (config : AutoConfig) : M cls_class :=
  try_except (lift (from_registry model_type config))
    (fun _ => from_modelling_file model_name_or_path model_type config).

(** Lines 94-97: whether [dschf] is set. *)
Definition zero3 (ds_config : option (gmap string (gmap string Z))) : result bool :=
  match ds_config with
  | None => Ok false
  | Some d =>
      z ← dict_get d "zero_optimization";
      stage ← dict_get z "stage";
      Ok (stage =? 3)%Z
  end.

(** Lines 99-105: [cls_class.from_pretrained]: an instance is made by the
    class's [__init__], then the checkpoint's weights are loaded into it.
    The [mean] and [std] buffers are not persistent, so they are not part
    of what is loaded; the instance is left in evaluation mode. *)
Definition from_pretrained (cls : cls_class) (model_name_or_path : string)
    (config : AutoConfig) : M LLMForSequenceRegression :=
  _ ← tell (EvFromPretrained cls model_name_or_path);
  self ← lift (match cls with
               | RewardClass p b =>
                   RewardModel.init (pretrained_init env p) (new_backbone env b)
                     (linear_reset env) (buffer_dtype env) config
               | CriticClass p b =>
                   CriticModel.init (pretrained_init env p) (new_backbone env b)
                     (linear_reset env) (buffer_dtype env) config
               end);
  '(bb, w) ← lift (load_state_dict env model_name_or_path self);
  mret {| base_model := bb; value_head := w;
          normalize_reward := normalize_reward self;
          mean := mean self; std := std self; training := false |}.

(** Lines 133 and 135: [weight.data.normal_(mean=0.0, std=1 / (hidden_size + 1))]. *)
Definition normal_ (config : AutoConfig) (w : list Q) : M (list Q) :=
  std_ ← lift (truediv 1 (hidden_size config + 1));
  _ ← tell (EvNormal 0 std_);
  mret (normal_draw env 0 std_ (length w)).

(** Lines 128-135. *)
Definition initialize_value_head (dschf : bool) (config : AutoConfig) (w : list Q)
  : M (list Q) :=
  if dschf then
    _ ← tell (EvLoggerInfo "initialize value_head for ZeRO-3 reward model training.");
    _ ← tell (EvGatheredParameters 0);
    w' ← (if (get_rank env =? 0)%Z then normal_ config w else mret w);
    mret (gathered_exit env w')
  else
    normal_ config w.

(** Lines 92-137: what the function does once the class is resolved.
    Line 111 stores the configuration on the model a second time; the
    [config] field of the result stands for both. *)
Definition load_and_adapt (model_name_or_path : string) (kw : Kw.t)
    (config : AutoConfig) (cls_class : cls_class) : M Model :=
  dschf ← lift (zero3 (Kw.ds_config kw));
  _ ← (if dschf then tell EvHfDeepSpeedConfig else mret tt);
  model ← from_pretrained cls_class model_name_or_path config;
  model_config ←
    (match output_router_logits config with
     | Some _ =>
         _ ← tell (EvPrint "[Mixtral 8x7b] set output_router_logits as True");
         mret (set_output_router_logits config)
     | None => mret config
     end);
  lora ←
    (if (0 <? Kw.lora_rank kw)%Z then
       let lora_config :=
         {| r := Kw.lora_rank kw;
            lora_alpha_ := Kw.lora_alpha kw;
            target_modules_ :=
              match Kw.target_modules kw with
              | Some (m :: ms) => m :: ms
              | _ => find_all_linear_names env model
              end |} in
       _ ← tell (EvGetPeftModel lora_config);
       mret (Some lora_config)
     else mret None);
  w ← (if Kw.init_value_head kw
       then initialize_value_head dschf config (value_head model)
       else mret (value_head model));
  mret {| module := set_value_head w model;
          model_class := cls_class;
          config := model_config;
          peft := lora |}.

(** Lines 20-137. *)
Definition get_llm_for_sequence_regression
    (model_name_or_path model_type : string) (kw : Kw.t) : M Model :=
  _ ← lift (if String.eqb model_type "critic" || String.eqb model_type "reward"
            then Ok tt
            else Raise (AssertionError
                          ("invalid model_type: " +:+ model_type +:+
                           ", should be critic or reward.")));
  _ ← tell (EvAutoConfigFromPretrained model_name_or_path);
  config ← lift (AutoConfig_from_pretrained env model_name_or_path);
  let config := configure (Kw.normalize_reward kw) (Kw.use_flash_attention_2 kw) config in
  cls_class ← resolve_class model_name_or_path model_type config;
  load_and_adapt model_name_or_path kw config cls_class.

End Construction.

(** ** Vocabulary of the statements *)

(** Every hidden vector has the value head's input size. *)
Definition hidden_ok (w : list Q) (hs : list (list (list Q))) : Prop :=
  Forall (Forall (fun h => length h = length w)) hs.

(** A row of an attention mask: entries 0 or 1, at least one 1. *)
Definition mask_row_ok (mk : list Z) : Prop :=
  Forall (fun x => x = 0%Z \/ x = 1%Z) mk /\ 1%Z ∈ mk.

(** [i] is the highest index of [mk] whose entry is 1. *)
Definition last_one (mk : list Z) (i : nat) : Prop :=
  mk !! i = Some 1%Z /\ forall j, (i < j)%nat -> mk !! j ≠ Some 1%Z.

(** The reward of row [mk], [hk] is the value head's projection of the
    hidden state at the highest index whose mask entry is 1. *)
Definition selects_last_one (w : list Q) (mk : list Z) (hk : list (list Q)) (x : Q)
  : Prop :=
  exists i h, last_one mk i /\ hk !! i = Some h /\ x = Torch.dot w h.

(** The reward of row [hk] is the projection of the hidden state at
    position [L - 1]. *)
Definition selects_position (w : list Q) (p : nat) (hk : list (list Q)) (x : Q)
  : Prop :=
  exists h, hk !! p = Some h /\ x = Torch.dot w h.

(** The value head applied at every position of every row, when the
    shapes fit. *)
Definition projections (w : list Q) (hs : list (list (list Q))) : list (list Q) :=
  fmap (M:=list) (fmap (M:=list) (Torch.dot w)) hs.

(** What [RewardModel.forward] returns for a reward and the outputs. *)
Definition reward_returned (return_output : bool) (reward : list Q) (outputs : Outputs)
  : RewardModel.ret :=
  if return_output then RewardModel.RewardOutputs reward outputs
  else RewardModel.Reward reward.

(** A map on rewards, applied to what [RewardModel.forward] returns. *)
Definition on_reward (f : Q -> Q) (r : result RewardModel.ret) : result RewardModel.ret :=
  match r with
  | Ok (RewardModel.Reward x) => Ok (RewardModel.Reward (fmap (M:=list) f x))
  | Ok (RewardModel.RewardOutputs x o) =>
      Ok (RewardModel.RewardOutputs (fmap (M:=list) f x) o)
  | Raise e => Raise e
  end.

(** Two results of [RewardModel.forward] that differ at most in how equal
    rationals are written. *)
Definition reward_equiv (r1 r2 : result RewardModel.ret) : Prop :=
  match r1, r2 with
  | Ok (RewardModel.Reward x), Ok (RewardModel.Reward y) => Forall2 Qeq x y
  | Ok (RewardModel.RewardOutputs x o), Ok (RewardModel.RewardOutputs y o') =>
      Forall2 Qeq x y /\ o = o'
  | Raise e, Raise e' => e = e'
  | _, _ => False
  end.

(** A map on values, applied to what [CriticModel.forward] returns. *)
Definition on_values (f : Q -> Q) (r : result CriticModel.ret) : result CriticModel.ret :=
  match r with
  | Ok (CriticModel.Values v) =>
      Ok (CriticModel.Values (fmap (M:=list) (fmap (M:=list) f) v))
  | Ok (CriticModel.ValuesOutputs v o) =>
      Ok (CriticModel.ValuesOutputs (fmap (M:=list) (fmap (M:=list) f) v) o)
  | Ok (CriticModel.OnlyOutputs o) => Ok (CriticModel.OnlyOutputs o)
  | Raise e => Raise e
  end.

(** An instance with the given attributes. *)
Definition instance (bb : Backbone) (w : list Q) (mu sigma : Q)
    (normalize is_training : bool) : LLMForSequenceRegression :=
  {| base_model := bb; value_head := w; normalize_reward := normalize;
     mean := mu; std := sigma; training := is_training |}.

(** Whether [CriticModel.forward] returned the outputs alone (line 245,
    [num_actions is None]). *)
Definition is_only_outputs (r : result CriticModel.ret) : bool :=
  match r with
  | Ok (CriticModel.OnlyOutputs _) => true
  | _ => false
  end.

(** The window of a row of [L] per-token values that [num_actions = n]
    selects: positions [L - 1 - n] to [L - 2]. *)
Definition action_window {A} (L n : nat) (row : list A) : list A :=
  drop (L - 1 - n) (take (L - 1) row).

(** ** Sample inputs *)

(** A backbone whose hidden state at a position is the token id, as a
    vector of one entry. *)
Definition id_backbone : Backbone :=
  fun _ ids _ =>
    Ok {| last_hidden_state :=
            fmap (M:=list) (fmap (M:=list) (fun i => [inject_Z i])) ids |}.

Definition sample_model (normalize is_training : bool) : LLMForSequenceRegression :=
  instance id_backbone [1%Q] 1 2 normalize is_training.

Definition sample_ids : list (list Z) := [[10; 20; 30]; [40; 50; 60]]%Z.

Definition sample_mask : list (list Z) := [[0; 1; 1]; [1; 1; 0]]%Z.

(** What [id_backbone] returns on [sample_ids]. *)
Definition sample_outputs : Outputs :=
  {| last_hidden_state :=
       [[[inject_Z 10]; [inject_Z 20]; [inject_Z 30]];
        [[inject_Z 40]; [inject_Z 50]; [inject_Z 60]]] |}.

(** A checkpoint whose configuration class the registry knows, with
    hidden size [h]. *)
Definition sample_config (h : Z) (amap : option (gmap string string)) : AutoConfig :=
  {| config_class := "LlamaConfig"; hidden_size := h;
     cfg_normalize_reward := None; cfg_mean := None; cfg_std := None;
     _attn_implementation := None; auto_map := amap;
     output_router_logits := None |}.

(** Libraries that answer every call; [in_registry] says whether the
    registry knows the configuration class. *)
Definition sample_env (h : Z) (amap : option (gmap string string)) (in_registry : bool)
  : Env :=
  {| AutoConfig_from_pretrained := fun _ => Ok (sample_config h amap);
     AutoModel_model_mapping :=
       fun c => if in_registry then Ok "LlamaModel"%string else Raise KeyError;
     class_base := fun _ => "LlamaPreTrainedModel"%string;
     class_statement := fun _ => Ok tt;
     get_class_from_dynamic_module := fun class_reference _ => Ok class_reference;
     pretrained_init := fun _ _ => Ok tt;
     new_backbone := fun _ _ => Ok id_backbone;
     linear_reset := fun n => Ok (replicate (Z.to_nat n) 0%Q);
     buffer_dtype := Torch.float32;
     load_state_dict := fun _ self => Ok (base_model self, value_head self);
     find_all_linear_names := fun _ => ["q_proj"; "v_proj"]%string;
     get_rank := 0;
     normal_draw := fun _ sigma n => replicate n sigma;
     gathered_exit := fun w => w |}.

Definition sample_kw (init : bool) : Kw.t :=
  {| Kw.bf16 := true; Kw.lora_rank := 0; Kw.lora_alpha := 16;
     Kw.target_modules := None; Kw.normalize_reward := false;
     Kw.use_flash_attention_2 := false; Kw.ds_config := None;
     Kw.init_value_head := init |}.

Definition qwen_auto_map : gmap string string :=
  {[ "AutoModelForCausalLM"%string := "modeling_qwen.QWenLMHeadModel"%string ]}.

Definition baichuan_auto_map : gmap string string :=
  {[ "AutoModelForCausalLM"%string := "modeling_baichuan.BaichuanForCausalLM"%string ]}.

(** ** Vocabulary of the further properties *)

(** Lines 160-165 and 218-223: the override of the attention
    auto-detection, the same text in both classes. *)
Definition _autoset_attn_implementation (config : AutoConfig) : M AutoConfig :=
  _ ← tell (EvLoggerInfo "Monkey patch for Flash Attention, see https://github.com/huggingface/transformers/issues/28052");
  mret config.

Definition result_map {A B} (f : A -> B) (r : result A) : result B :=
  match r with
  | Ok a => Ok (f a)
  | Raise e => Raise e
  end.

(** The reward in what [RewardModel.forward] returns. *)
Definition reward_of (r : RewardModel.ret) : list Q :=
  match r with
  | RewardModel.Reward x => x
  | RewardModel.RewardOutputs x _ => x
  end.

(** The outputs in what [RewardModel.forward] returns, when it returns
    them. *)
Definition reward_outputs_of (r : RewardModel.ret) : option Outputs :=
  match r with
  | RewardModel.Reward _ => None
  | RewardModel.RewardOutputs _ o => Some o
  end.

(** The values in what [CriticModel.forward] returns. *)
Definition values_of (r : CriticModel.ret) : option (list (list Q)) :=
  match r with
  | CriticModel.Values v => Some v
  | CriticModel.ValuesOutputs v _ => Some v
  | CriticModel.OnlyOutputs _ => None
  end.

(** [i] is the highest index of [mk] that holds the maximum of [mk]. *)
Definition last_max (mk : list Z) (i : nat) : Prop :=
  exists m,
    mk !! i = Some m /\
    (forall j y, mk !! j = Some y -> (y <= m)%Z) /\
    (forall j, (i < j)%nat -> mk !! j ≠ Some m).

(** The reward of row [mk], [hk] is the projection of the hidden state at
    the highest index that holds the maximum of the mask row. *)
Definition selects_last_max (w : list Q) (mk : list Z) (hk : list (list Q)) (x : Q)
  : Prop :=
  exists i h, last_max mk i /\ hk !! i = Some h /\ x = Torch.dot w h.

(** The last entry of the row is a maximum of the row: a left-padded row
    of 0s and 1s, or a row of one repeated value. *)
Definition last_entry_maximal (mk : list Z) : Prop :=
  exists m, last mk = Some m /\ Forall (fun y => (y <= m)%Z) mk.

(** What the critic keeps of a row of [L] per-token values for an
    [action_mask] of [n] columns. *)
Definition kept_values {A} (L n : nat) (row : list A) : list A :=
  if ((n =? 0)%nat || (L - 1 <? n)%nat)%bool then take (L - 1) row
  else action_window L n row.

(** [sep] occurs in [a ++ tail] at no position inside [a]. *)
Fixpoint no_match_inside (sep a tail : string) : Prop :=
  match a with
  | EmptyString => True
  | String c a' =>
      String.prefix sep (String c (a' +:+ tail)) = false /\
      no_match_inside sep a' tail
  end.

(** The adapter configuration of lines 115-122 for a loaded model. *)
Definition lora_config_of (env : Env) (kw : Kw.t) (model : LLMForSequenceRegression)
  : LoraConfig :=
  {| r := Kw.lora_rank kw;
     lora_alpha_ := Kw.lora_alpha kw;
     target_modules_ :=
       match Kw.target_modules kw with
       | Some (m :: ms) => m :: ms
       | _ => find_all_linear_names env model
       end |}.

(** Events of the fallback of lines 64-86, for a checkpoint at [path]. *)
Definition fallback_event (path : string) (ev : event) : Prop :=
  ev = EvPrint "Failed to load from AutoModel, construct from modelling file."
  \/ (exists msg, ev = EvLoggerInfo msg)
  \/ (exists class_reference, ev = EvGetClassFromDynamicModule class_reference path).

(** A configuration with a [mean] and [std] in it, and one whose registry
    entry exists, for the sample environment. *)
Definition sample_stats_env (mu : option Q) (sigma : option Q) : Env :=
  {| AutoConfig_from_pretrained := fun _ =>
       Ok {| config_class := "LlamaConfig"; hidden_size := 3;
             cfg_normalize_reward := None;
             cfg_mean := fmap (M:=option) PyNumber mu;
             cfg_std := fmap (M:=option) PyNumber sigma;
             _attn_implementation := None; auto_map := None;
             output_router_logits := Some false |};
     AutoModel_model_mapping := fun c => Ok "LlamaModel"%string;
     class_base := fun _ => "LlamaPreTrainedModel"%string;
     class_statement := fun _ => Ok tt;
     get_class_from_dynamic_module := fun class_reference _ => Ok class_reference;
     pretrained_init := fun _ _ => Ok tt;
     new_backbone := fun _ _ => Ok id_backbone;
     linear_reset := fun n => Ok (replicate (Z.to_nat n) 0%Q);
     buffer_dtype := Torch.float32;
     load_state_dict := fun _ self => Ok (base_model self, [1; 2; 3]%Q);
     find_all_linear_names := fun _ => ["q_proj"; "v_proj"]%string;
     get_rank := 1;
     normal_draw := fun _ sigma n => replicate n sigma;
     gathered_exit := fun w => fmap (M:=list) (fun _ => 7%Q) w |}.

Definition zero3_config : gmap string (gmap string Z) :=
  {[ "zero_optimization"%string := {[ "stage"%string := 3%Z ]} ]}.

Definition sample_kw_full (rank : Z) (targets : option (list string))
    (ds : option (gmap string (gmap string Z))) (init : bool) : Kw.t :=
  {| Kw.bf16 := true; Kw.lora_rank := rank; Kw.lora_alpha := 16;
     Kw.target_modules := targets; Kw.normalize_reward := true;
     Kw.use_flash_attention_2 := true; Kw.ds_config := ds;
     Kw.init_value_head := init |}.


(** What [CriticModel.forward] returns for values and the outputs, for an
    [action_mask] that is given. *)
Definition critic_returned (return_output : bool) (values : list (list Q))
    (outputs : Outputs) : CriticModel.ret :=
  if return_output then CriticModel.ValuesOutputs values outputs
  else CriticModel.Values values.

(** [stem] is [name] up to its first ["For"], or the whole of a [name]
    that has no ["For"]. *)
Definition stem_of (name stem : string) : Prop :=
  (exists rest, name = stem +:+ "For" +:+ rest
                /\ no_match_inside "For" stem ("For" +:+ rest))
  \/ (name = stem /\ no_match_inside "For" name "").

(** The class names the fallback is to derive from the causal-LM class
    [name] of the checkpoint: two fixed names for QWen and for InternLM;
    otherwise the causal-LM suffix is stripped from [name], and the base
    class is the one an ["AutoModel"] entry names when there is one. *)
Definition class_names_rule (am : gmap string string)
    (name auto_model_name pretrained_model_name : string) : Prop :=
  (name = "QWenLMHeadModel"%string
   /\ auto_model_name = "QWenModel"%string
   /\ pretrained_model_name = "QWenPreTrainedModel"%string)
  \/ (name = "InternLMForCausalLM"%string
      /\ auto_model_name = "InternLMModel"%string
      /\ pretrained_model_name = "InternLMPreTrainedModel"%string)
  \/ (name ≠ "QWenLMHeadModel"%string
      /\ name ≠ "InternLMForCausalLM"%string
      /\ exists stem,
           stem_of name stem
           /\ pretrained_model_name = stem +:+ "PreTrainedModel"
           /\ ((am !! "AutoModel"%string = None
                /\ auto_model_name = stem +:+ "Model")
               \/ (exists other_module,
                     am !! "AutoModel"%string
                       = Some (other_module +:+ "." +:+ auto_model_name)
                     /\ no_match_inside "." other_module ""
                     /\ no_match_inside "." auto_model_name ""))).

(** The Python float [0.1]: the double nearest to 1/10. *)
Definition tenth : Q := 3602879701896397 # 36028797018963968.


(** * Properties *)

(** ** The error monad on lists *)

Lemma mapM_cons_Ok {A B} (f : A -> result B) a l b bs :
  f a = Ok b -> mapM f l = Ok bs -> mapM f (a :: l) = Ok (b :: bs).
Proof. intros Ha Hl. cbn. rewrite Ha. cbn. rewrite Hl. reflexivity. Qed.

Lemma mapM_total {A B} (f : A -> result B) (g : A -> B) (l : list A) :
  Forall (fun a => f a = Ok (g a)) l -> mapM f l = Ok (fmap g l).
Proof.
  induction 1 as [|a l Ha _ IH]; [reflexivity|].
  rewrite fmap_cons. apply mapM_cons_Ok; assumption.
Qed.

(** ** Shapes *)

Lemma linear_ok w h : length h = length w -> Torch.linear w h = Ok (Torch.dot w h).
Proof.
  intros H. unfold Torch.linear. rewrite H, Nat.eqb_refl. reflexivity.
Qed.

Lemma project_ok w hs :
  hidden_ok w hs -> project w hs = Ok (projections w hs).
Proof.
  intros H. unfold project. apply mapM_total.
  eapply Forall_impl; [exact H|]. intros row Hrow. apply mapM_total.
  eapply Forall_impl; [exact Hrow|]. intros h Hh. apply linear_ok, Hh.
Qed.

(** ** Python indexing and slicing *)

Lemma getitem_last {A} (l : list A) :
  (0 < length l)%nat ->
  exists x, l !! (length l - 1)%nat = Some x /\ Py.getitem l (-1) = Ok x.
Proof.
  intros Hlen. unfold Py.getitem. cbv zeta.
  change (-1 <? 0)%Z with true. cbv iota.
  destruct (Z.ltb_spec (-1 + Z.of_nat (length l)) 0) as [Hneg|Hpos]; [lia|].
  replace (Z.to_nat (-1 + Z.of_nat (length l))) with (length l - 1)%nat by lia.
  destruct (lookup_lt_is_Some_2 l (length l - 1)%nat) as [x Hx]; [lia|].
  exists x. rewrite Hx. split; reflexivity.
Qed.

Lemma slice_bound_neg len n :
  (0 < n)%Z -> (n <= Z.of_nat len)%Z ->
  Py.slice_bound len (- n) = (len - Z.to_nat n)%nat.
Proof.
  intros Hn Hle. unfold Py.slice_bound.
  destruct (Z.ltb_spec (- n) 0); lia.
Qed.

Lemma slice_bound_zero len : Py.slice_bound len (- 0) = 0%nat.
Proof. unfold Py.slice_bound. simpl. lia. Qed.

Lemma slice_to_minus_one {A} (l : list A) :
  Py.slice_to (-1) l = take (length l - 1) l.
Proof.
  unfold Py.slice_to. f_equal. unfold Py.slice_bound. cbv zeta.
  change (-1 <? 0)%Z with true. cbv iota. lia.
Qed.

(** ** argmax *)

Lemma first_max_spec l : forall x m i,
  Torch.first_max x l = (m, i) ->
  (x :: l) !! i = Some m /\
  (forall j y, (x :: l) !! j = Some y -> (y <= m)%Z) /\
  (forall j y, (j < i)%nat -> (x :: l) !! j = Some y -> (y < m)%Z).
Proof.
  induction l as [|y l IH]; intros x m i Hfm; simpl in Hfm.
  - injection Hfm as <- <-. split; [reflexivity|]. split.
    + intros [|j] z Hz; simpl in Hz; [injection Hz as <-; lia|discriminate].
    + intros j z Hj. lia.
  - destruct (Torch.first_max y l) as [m' i'] eqn:Hrec.
    destruct (IH y m' i' Hrec) as (Hat & Hle & Hlt).
    destruct (Z.leb_spec m' x) as [Hmx|Hmx]; injection Hfm as <- <-.
    + split; [reflexivity|]. split.
      * intros [|j] z Hz; simpl in Hz; [injection Hz as <-; lia|].
        specialize (Hle j z Hz). lia.
      * intros j z Hj. lia.
    + split; [exact Hat|]. split.
      * intros [|j] z Hz; simpl in Hz; [injection Hz as <-; lia|].
        exact (Hle j z Hz).
      * intros [|j] z Hj Hz; simpl in Hz; [injection Hz as <-; lia|].
        apply (Hlt j z); [lia|exact Hz].
Qed.

Lemma argmax_row_last_one (mk : list Z) :
  mask_row_ok mk ->
  exists a : nat,
    Torch.argmax_row (reverse mk) = Ok (Z.of_nat a) /\
    (a < length mk)%nat /\
    last_one mk (length mk - 1 - a).
Proof.
  intros [H01 Hone].
  apply list_elem_of_lookup in Hone as [p Hp].
  pose proof (lookup_lt_Some _ _ _ Hp) as Hplt.
  destruct (reverse mk) as [|x l] eqn:Hrev.
  { apply (f_equal length) in Hrev. rewrite length_reverse in Hrev. simpl in Hrev. lia. }
  assert (Hlen : length (x :: l) = length mk) by (rewrite <- Hrev; apply length_reverse).
  unfold Torch.argmax_row.
  destruct (Torch.first_max x l) as [m a] eqn:Hfm. simpl snd.
  destruct (first_max_spec l x m a Hfm) as (Hat & Hle & Hlt).
  pose proof (lookup_lt_Some _ _ _ Hat) as Halt. rewrite Hlen in Halt.
  assert (Hrl : forall i, (i < length mk)%nat ->
                          (x :: l) !! i = mk !! (length mk - S i)%nat).
  { intros i Hi. rewrite <- Hrev. apply reverse_lookup. exact Hi. }
  assert (Hm : m = 1%Z).
  { assert (Hm1 : (1 <= m)%Z).
    { apply (Hle (length mk - S p)%nat). rewrite Hrl by lia.
      replace (length mk - S (length mk - S p))%nat with p by lia. exact Hp. }
    rewrite Hrl in Hat by lia.
    rewrite Forall_lookup in H01. destruct (H01 _ _ Hat); lia. }
  subst m. exists a. split; [reflexivity|]. split; [exact Halt|]. split.
  - rewrite Hrl in Hat by lia.
    replace (length mk - 1 - a)%nat with (length mk - S a)%nat by lia. exact Hat.
  - intros j Hj Hmj.
    pose proof (lookup_lt_Some _ _ _ Hmj) as Hjlt.
    assert (Hlt' : (1 < 1)%Z); [|lia].
    apply (Hlt (length mk - S j)%nat); [lia|].
    rewrite Hrl by lia.
    replace (length mk - S (length mk - S j))%nat with j by lia. exact Hmj.
Qed.

(** ** Reward model, training mode *)

Lemma last_position_rows w L (hs : list (list (list Q))) :
  (0 < L)%nat ->
  Forall (fun row => length row = L) hs ->
  exists reward,
    mapM (fun row => Py.getitem row (-1)) (projections w hs) = Ok reward /\
    Forall2 (selects_position w (L - 1)) hs reward.
Proof.
  intros HL. induction 1 as [|row hs Hrow _ (reward & Hm & Hsel)].
  - exists []. split; [reflexivity|constructor].
  - destruct (getitem_last (Torch.dot w <$> row)) as (x & Hx & Hget).
    { rewrite length_fmap. lia. }
    rewrite length_fmap, Hrow, list_lookup_fmap in Hx.
    destruct (row !! (L - 1)%nat) as [h|] eqn:Hh; [|discriminate].
    injection Hx as <-.
    exists (Torch.dot w h :: reward). split.
    + unfold projections. rewrite fmap_cons. apply mapM_cons_Ok; assumption.
    + constructor; [|exact Hsel]. exists h. split; [exact Hh|reflexivity].
Qed.

(** C2.  In training mode the reward model returns, for each row, the value
    head's projection of the hidden state at the last sequence position
    [L - 1], whatever the attention mask is (also when it is [None]); no
    normalization is applied. *)
Theorem reward_training_last_position
    (self : LLMForSequenceRegression) (input_ids : list (list Z))
    (attention_mask : option (list (list Z))) (return_output : bool)
    (outs : Outputs) (L : nat) :
  training self = true ->
  base_model self true input_ids attention_mask = Ok outs ->
  hidden_ok (value_head self) (last_hidden_state outs) ->
  Forall (fun row => length row = L) (last_hidden_state outs) ->
  (0 < L)%nat ->
  exists reward,
    RewardModel.forward self input_ids attention_mask return_output
      = Ok (reward_returned return_output reward outs) /\
    Forall2 (selects_position (value_head self) (L - 1)) (last_hidden_state outs) reward.
Proof.
  intros Htrain Hbb Hhid Hrows HL.
  destruct (last_position_rows (value_head self) L _ HL Hrows) as (reward & Hm & Hsel).
  exists reward. split; [|exact Hsel].
  unfold RewardModel.forward. rewrite Htrain, Hbb. cbn.
  rewrite (project_ok _ _ Hhid). cbn. rewrite Hm. cbn.
  unfold reward_returned. destruct return_output; reflexivity.
Qed.

(** ** Reward model, evaluation mode *)

Lemma size1_rows {A} (L : nat) (t : list (list A)) :
  t ≠ [] -> Forall (fun row => length row = L) t -> Torch.size1 t = Z.of_nat L.
Proof.
  intros Hne Hrows. destruct t as [|row t]; [congruence|].
  inversion Hrows; subst. reflexivity.
Qed.

(** The three steps of lines 184-185, row by row: [c] is
    [attention_mask.size(1)]. *)
Lemma eval_select_rows w (L : nat) (am : list (list Z)) (hs : list (list (list Q))) :
  Forall2 (fun mk hk => length mk = L /\ length hk = L /\ mask_row_ok mk) am hs ->
  exists a selected,
    Torch.argmax (Torch.fliplr am) = Ok a /\
    Torch.gather (projections w hs)
      (fmap (M:=list) (fun x => Z.of_nat L - 1 - x)%Z a) = Ok selected /\
    Forall3 (selects_last_one w) am hs selected.
Proof.
  induction 1 as [|mk hk am hs (Hlm & Hlh & Hmk) _ (a & sel & Harg & Hg & Hsel)].
  - exists [], []. repeat split; constructor.
  - destruct (argmax_row_last_one mk Hmk) as (a0 & Ha0 & Hlt & Hlast).
    rewrite Hlm in Hlt, Hlast.
    destruct (lookup_lt_is_Some_2 hk (L - 1 - a0)%nat) as [h Hh]; [lia|].
    exists (Z.of_nat a0 :: a), (Torch.dot w h :: sel). split; [|split].
    + unfold Torch.argmax, Torch.fliplr. rewrite fmap_cons.
      apply mapM_cons_Ok; assumption.
    + unfold projections. rewrite !fmap_cons. cbn.
      destruct (Z.ltb_spec (Z.of_nat L - 1 - Z.of_nat a0) 0) as [Hneg|_]; [lia|].
      replace (Z.to_nat (Z.of_nat L - 1 - Z.of_nat a0)) with (L - 1 - a0)%nat by lia.
      rewrite list_lookup_fmap, Hh. cbn.
      unfold projections in Hg. rewrite Hg. reflexivity.
    + constructor; [|exact Hsel]. exists (L - 1 - a0)%nat, h. auto.
Qed.

(** C3.  In evaluation mode, on a mask of 0s and 1s with a 1 in every row,
    the reward selected for each row is the value head's projection at the
    highest index whose mask entry is 1, wherever the 0s are; what is
    returned is that reward, standardized when [normalize_reward] is set. *)
Theorem reward_eval_last_real_token
    (self : LLMForSequenceRegression) (input_ids am : list (list Z))
    (return_output : bool) (outs : Outputs) (L : nat) :
  training self = false ->
  base_model self false input_ids (Some am) = Ok outs ->
  hidden_ok (value_head self) (last_hidden_state outs) ->
  Forall2 (fun mk hk => length mk = L /\ length hk = L /\ mask_row_ok mk)
    am (last_hidden_state outs) ->
  exists selected,
    Forall3 (selects_last_one (value_head self)) am (last_hidden_state outs) selected /\
    RewardModel.forward self input_ids (Some am) return_output
      = Ok (reward_returned return_output
              (if normalize_reward self
               then fmap (M:=list) (standardize self) selected
               else selected) outs).
Proof.
  intros Heval Hbb Hhid Hrows.
  destruct (eval_select_rows (value_head self) L _ _ Hrows)
    as (a & selected & Harg & Hg & Hsel).
  exists selected. split; [exact Hsel|].
  unfold RewardModel.forward. rewrite Heval, Hbb. cbn.
  rewrite (project_ok _ _ Hhid). cbn. rewrite Harg. cbn.
  destruct am as [|mk am'].
  - inversion Hsel; subst.
    cbn in Harg. injection Harg as <-. cbn.
    unfold reward_returned.
    destruct (normalize_reward self), return_output; reflexivity.
  - assert (Hlen : Forall (fun row => length row = L) (mk :: am')).
    { clear -Hrows. induction Hrows as [|? ? ? ? (? & _) _ IH]; constructor; assumption. }
    assert (Hne : mk :: am' ≠ []) by discriminate.
    rewrite (size1_rows L _ Hne Hlen).
    rewrite Hg. cbn. unfold reward_returned.
    destruct (normalize_reward self), return_output; reflexivity.
Qed.

(** A row of padding only has no index whose entry is 1; the code selects
    position [L - 1] there. *)
Example reward_eval_all_padding_row :
  RewardModel.forward (sample_model false false) sample_ids
    (Some [[0; 0; 0]; [1; 1; 0]]%Z) false
  = Ok (RewardModel.Reward [inject_Z 30; inject_Z 50]).
Proof. reflexivity. Qed.

Example reward_eval_sample :
  RewardModel.forward (sample_model false false) sample_ids (Some sample_mask) false
  = Ok (RewardModel.Reward [inject_Z 30; inject_Z 50]).
Proof. reflexivity. Qed.

(** ** Reward normalization *)

Lemma affine_identity (x : list Q) :
  Forall2 Qeq (fmap (M:=list) (fun v => (v - 0) / 1)%Q x) x.
Proof.
  induction x as [|v x IH]; [constructor|].
  rewrite fmap_cons. constructor; [|exact IH].
  destruct v as [n d]. unfold Qeq. simpl. lia.
Qed.

(** How the results with and without [normalize_reward] are related, for
    every input, also one on which [forward] raises. *)
Lemma reward_normalization_relates_flags
    (bb : Backbone) (w : list Q) (mu sigma : Q) (input_ids : list (list Z))
    (attention_mask : option (list (list Z))) (return_output : bool) :
  RewardModel.forward (instance bb w mu sigma true false)
      input_ids attention_mask return_output
    = on_reward (fun x => (x - mu) / sigma)%Q
        (RewardModel.forward (instance bb w mu sigma false false)
           input_ids attention_mask return_output)
  /\ RewardModel.forward (instance bb w mu sigma true true)
       input_ids attention_mask return_output
     = RewardModel.forward (instance bb w mu sigma false true)
         input_ids attention_mask return_output
  /\ reward_equiv
       (RewardModel.forward (instance bb w 0 1 true false)
          input_ids attention_mask return_output)
       (RewardModel.forward (instance bb w 0 1 false false)
          input_ids attention_mask return_output).
Proof.
  assert (Heval : forall mu' sigma',
    RewardModel.forward (instance bb w mu' sigma' true false)
        input_ids attention_mask return_output
      = on_reward (fun x => (x - mu') / sigma')%Q
          (RewardModel.forward (instance bb w mu' sigma' false false)
             input_ids attention_mask return_output)).
  { intros mu' sigma'. unfold RewardModel.forward, instance. cbn.
    destruct (bb false input_ids attention_mask) as [outs|e]; [|reflexivity]. cbn.
    destruct (project w (last_hidden_state outs)) as [values|e]; [|reflexivity]. cbn.
    destruct attention_mask as [am|]; [|reflexivity]. cbn.
    destruct (Torch.argmax (Torch.fliplr am)) as [a|e]; [|reflexivity]. cbn.
    destruct (Torch.gather values _) as [reward|e]; [|reflexivity]. cbn.
    destruct return_output; reflexivity. }
  split; [apply Heval|]. split; [reflexivity|].
  rewrite Heval.
  destruct (RewardModel.forward (instance bb w 0 1 false false)
              input_ids attention_mask return_output) as [[x|x o]|e]; cbn.
  - apply affine_identity.
  - split; [apply affine_identity|reflexivity].
  - reflexivity.
Qed.

(** ** Critic model *)

Lemma slice_from_fmap {A B} (f : A -> B) (start : Z) (l : list A) :
  Py.slice_from start (f <$> l) = f <$> Py.slice_from start l.
Proof. unfold Py.slice_from. rewrite length_fmap, fmap_drop. reflexivity. Qed.

Lemma slice_rows_fmap (f : Q -> Q) (start : Z) (values : list (list Q)) :
  fmap (M:=list) (Py.slice_from start) (fmap (M:=list) (fmap (M:=list) f) values)
  = fmap (M:=list) (fmap (M:=list) f) (fmap (M:=list) (Py.slice_from start) values).
Proof.
  rewrite <- !list_fmap_compose. apply list_fmap_ext.
  intros _ row _. cbn. apply slice_from_fmap.
Qed.

(** How the critic's results in the two modes, and with and without
    [normalize_reward], are related, for every input, also one on which
    [forward] raises. *)
Lemma critic_normalization_relates_flags
    (bb : Backbone) (w : list Q) (mu sigma : Q) (input_ids : list (list Z))
    (action_mask attention_mask : option (list (list Z))) (return_output : bool) :
  bb true input_ids attention_mask = bb false input_ids attention_mask ->
  CriticModel.forward (instance bb w mu sigma true true)
      input_ids action_mask attention_mask return_output
    = CriticModel.forward (instance bb w mu sigma true false)
        input_ids action_mask attention_mask return_output
  /\ forall is_training,
       CriticModel.forward (instance bb w mu sigma true is_training)
           input_ids action_mask attention_mask return_output
         = on_values (fun v => (v - mu) / sigma)%Q
             (CriticModel.forward (instance bb w mu sigma false is_training)
                input_ids action_mask attention_mask return_output).
Proof.
  intros Hbb. split.
  - unfold CriticModel.forward, instance. cbn. rewrite Hbb. reflexivity.
  - intros is_training. unfold CriticModel.forward, instance. cbn.
    destruct (bb is_training input_ids attention_mask) as [outs|e]; [|reflexivity]. cbn.
    destruct (project w (last_hidden_state outs)) as [projected|e]; [|reflexivity]. cbn.
    destruct action_mask as [am|]; [|reflexivity]. cbn.
    rewrite slice_rows_fmap.
    destruct return_output; reflexivity.
Qed.

Lemma action_window_slices {A} (L n : nat) (row : list A) :
  length row = L -> (1 <= n)%nat -> (n <= L - 1)%nat ->
  Py.slice_from (- Z.of_nat n) (Py.slice_to (-1) row) = action_window L n row.
Proof.
  intros Hlen Hn HnL. rewrite slice_to_minus_one, Hlen.
  unfold Py.slice_from, action_window.
  rewrite length_take, Hlen, slice_bound_neg by lia.
  f_equal. lia.
Qed.

Lemma action_window_lookup {A} (L n j : nat) (row : list A) :
  length row = L -> (n <= L - 1)%nat -> (j < n)%nat ->
  action_window L n row !! j = row !! (L - 1 - n + j)%nat.
Proof.
  intros Hlen HnL Hj. unfold action_window.
  rewrite lookup_drop, lookup_take_lt by lia. reflexivity.
Qed.

Lemma action_window_length {A} (L n : nat) (row : list A) :
  length row = L -> (n <= L - 1)%nat -> length (action_window L n row) = n.
Proof.
  intros Hlen HnL. unfold action_window. rewrite length_drop, length_take. lia.
Qed.

(** Support for C6.  For [1 <= num_actions <= L - 1] the critic returns,
    for each row, the per-token values at positions [L - 1 - num_actions]
    to [L - 2]: [num_actions] entries. *)
Lemma critic_last_actions_positive
    (self : LLMForSequenceRegression) (input_ids am : list (list Z))
    (attention_mask : option (list (list Z))) (outs : Outputs) (L n : nat) :
  base_model self (training self) input_ids attention_mask = Ok outs ->
  hidden_ok (value_head self) (last_hidden_state outs) ->
  Forall (fun row => length row = L) (last_hidden_state outs) ->
  Torch.size1 am = Z.of_nat n ->
  (1 <= n)%nat -> (n <= L - 1)%nat ->
  normalize_reward self = false ->
  CriticModel.forward self input_ids (Some am) attention_mask false
    = Ok (CriticModel.Values
            (fmap (M:=list) (action_window L n)
               (projections (value_head self) (last_hidden_state outs))))
  /\ Forall (fun row => length row = n)
       (fmap (M:=list) (action_window L n)
          (projections (value_head self) (last_hidden_state outs))).
Proof.
  intros Hbb Hhid Hrows Hsize Hn HnL Hnorm.
  assert (Hplen : Forall (fun row => length row = L)
                    (projections (value_head self) (last_hidden_state outs))).
  { unfold projections. rewrite Forall_fmap.
    eapply Forall_impl; [exact Hrows|]. intros row Hrow. cbn.
    rewrite length_fmap. exact Hrow. }
  split.
  - unfold CriticModel.forward. rewrite Hbb. cbn.
    rewrite (project_ok _ _ Hhid). cbn. rewrite Hnorm, Hsize. cbn.
    do 2 f_equal. rewrite <- list_fmap_compose.
    apply Forall_fmap_ext. eapply Forall_impl; [exact Hplen|].
    intros row Hrow. cbn. apply action_window_slices; assumption.
  - rewrite Forall_fmap. eapply Forall_impl; [exact Hplen|].
    intros row Hrow. cbn. apply action_window_length; assumption.
Qed.

(** C6.  At an [action_mask] of no columns ([num_actions = 0]) and a
    sequence of length 3, the slice [values[:, -0:]] is the whole row: the
    critic returns [L - 1 = 2] values per row, not [num_actions = 0]. *)
Theorem critic_zero_actions_returns_all_values :
  CriticModel.forward (sample_model false false) sample_ids (Some [[]; []]) None false
    = Ok (CriticModel.Values [[inject_Z 10; inject_Z 20]; [inject_Z 40; inject_Z 50]])
  /\ Torch.size1 (A:=Z) [[]; []] = 0%Z.
Proof. split; reflexivity. Qed.

(** C10.  Without an [action_mask] the critic raises: [action_mask.size(1)]
    fails with an [AttributeError] unless the backbone or the value head
    raised before it.  With any [action_mask], [num_actions] is an [int],
    so [forward] never returns the outputs alone. *)
Theorem critic_action_mask_required
    (self : LLMForSequenceRegression) (input_ids : list (list Z))
    (action_mask attention_mask : option (list (list Z))) (return_output : bool) :
  CriticModel.forward self input_ids None attention_mask return_output
    = (outputs ← base_model self (training self) input_ids attention_mask;
       _ ← project (value_head self) (last_hidden_state outputs);
       Raise AttributeError)
  /\ Py.is_ok (CriticModel.forward self input_ids None attention_mask return_output)
     = false
  /\ is_only_outputs
       (CriticModel.forward self input_ids action_mask attention_mask return_output)
     = false.
Proof.
  unfold CriticModel.forward.
  destruct (base_model self (training self) input_ids attention_mask) as [outs|e];
    cbn; [|repeat split; reflexivity].
  destruct (project (value_head self) (last_hidden_state outs)) as [projected|e];
    cbn; [|repeat split; reflexivity].
  split; [reflexivity|]. split; [reflexivity|].
  destruct action_mask as [am|]; cbn; [|reflexivity].
  destruct return_output; reflexivity.
Qed.

(** ** Construction of an instance *)


(** ** Traces *)

Lemma bind_ok {A B} (m : M A) (f : A -> M B) a :
  outcome m = Ok a ->
  m ≫= f = mkM (trace m ++ trace (f a)) (outcome (f a)).
Proof. intros H. unfold mbind, M_bind. rewrite H. reflexivity. Qed.

Lemma bind_raise {A B} (m : M A) (f : A -> M B) e :
  outcome m = Raise e -> m ≫= f = mkM (trace m) (Raise e).
Proof. intros H. unfold mbind, M_bind. rewrite H. reflexivity. Qed.

Lemma elem_of_trace_bind_l {A B} (m : M A) (f : A -> M B) ev :
  ev ∈ trace m -> ev ∈ trace (m ≫= f).
Proof.
  intros H. unfold mbind, M_bind. destruct (outcome m); cbn; [|exact H].
  apply elem_of_app. left. exact H.
Qed.

Lemma elem_of_trace_bind_r {A B} (m : M A) (f : A -> M B) a ev :
  outcome m = Ok a -> ev ∈ trace (f a) -> ev ∈ trace (m ≫= f).
Proof.
  intros Hm H. rewrite (bind_ok m f a Hm). cbn. apply elem_of_app. right. exact H.
Qed.

Lemma elem_of_trace_bind_inv {A B} (m : M A) (f : A -> M B) ev :
  ev ∈ trace (m ≫= f) ->
  ev ∈ trace m \/ exists a, outcome m = Ok a /\ ev ∈ trace (f a).
Proof.
  unfold mbind, M_bind. destruct (outcome m) as [a|e] eqn:Hm; cbn; [|auto].
  rewrite elem_of_app. intros [H|H]; [auto|]. right. exists a. auto.
Qed.

Lemma outcome_bind_inv {A B} (m : M A) (f : A -> M B) b :
  outcome (m ≫= f) = Ok b -> exists a, outcome m = Ok a /\ outcome (f a) = Ok b.
Proof.
  unfold mbind, M_bind. destruct (outcome m) as [a|e]; cbn; [|discriminate].
  intros H. exists a. auto.
Qed.

Lemma outcome_bind_raise {A B} (m : M A) (f : A -> M B) e :
  outcome m = Raise e -> outcome (m ≫= f) = Raise e.
Proof. intros H. rewrite (bind_raise m f e H). reflexivity. Qed.

Lemma outcome_bind_ok {A B} (m : M A) (f : A -> M B) a :
  outcome m = Ok a -> outcome (m ≫= f) = outcome (f a).
Proof. intros H. rewrite (bind_ok m f a H). reflexivity. Qed.

Lemma try_except_raise {A} (body : M A) (handler : exn -> M A) e :
  trace body = [] -> outcome body = Raise e -> try_except body handler = handler e.
Proof.
  intros Ht Ho. unfold try_except. rewrite Ho, Ht.
  destruct (handler e). reflexivity.
Qed.

(** ** The assertion at entry *)

(** C7.  For a [model_type] that is neither ["critic"] nor ["reward"] the
    function raises an [AssertionError] and has made no call before it: no
    configuration and no weights were loaded. *)
Theorem invalid_model_type_asserts
    (env : Env) (model_name_or_path model_type : string) (kw : Kw.t) :
  model_type ≠ "critic"%string ->
  model_type ≠ "reward"%string ->
  get_llm_for_sequence_regression env model_name_or_path model_type kw
    = mkM [] (Raise (AssertionError
                       ("invalid model_type: " +:+ model_type +:+
                        ", should be critic or reward."))).
Proof.
  intros Hc Hr. unfold get_llm_for_sequence_regression.
  apply String.eqb_neq in Hc, Hr. rewrite Hc, Hr. reflexivity.
Qed.

(** ** The class names of the fallback, at sample checkpoints *)

(** The class names the handler derives: the two special cases, and the
    rule that cuts the causal-LM name at its first ["For"]. *)
Example dynamic_names_qwen :
  dynamic_names (sample_config 3 (Some qwen_auto_map))
  = Ok ("modeling_qwen", "QWenModel", "QWenPreTrainedModel")%string.
Proof. vm_compute. reflexivity. Qed.

Example dynamic_names_internlm :
  dynamic_names
    (sample_config 3
       (Some {[ "AutoModelForCausalLM"%string
                := "modeling_internlm.InternLMForCausalLM"%string ]}))
  = Ok ("modeling_internlm", "InternLMModel", "InternLMPreTrainedModel")%string.
Proof. vm_compute. reflexivity. Qed.

Example dynamic_names_by_convention :
  dynamic_names (sample_config 3 (Some baichuan_auto_map))
  = Ok ("modeling_baichuan", "BaichuanModel", "BaichuanPreTrainedModel")%string.
Proof. vm_compute. reflexivity. Qed.

Example dynamic_names_auto_model_entry :
  dynamic_names
    (sample_config 3
       (Some (<[ "AutoModel"%string := "modeling_baichuan.BaichuanBackbone"%string ]>
                baichuan_auto_map)))
  = Ok ("modeling_baichuan", "BaichuanBackbone", "BaichuanPreTrainedModel")%string.
Proof. vm_compute. reflexivity. Qed.

Example dynamic_names_without_auto_map :
  outcome (get_llm_for_sequence_regression (sample_env 3 None false)
             "ckpt" "critic" (sample_kw false))
  = Raise AttributeError.
Proof. vm_compute. reflexivity. Qed.

(** ** Initialization of the value head *)

Ltac trace_inv :=
  repeat match goal with
    | H : _ ∈ trace (_ ≫= _) |- _ =>
        apply elem_of_trace_bind_inv in H; destruct H as [H | (? & ? & H)]
    | H : _ ∈ trace (tell ?ev) |- _ =>
        change (trace (tell ev)) with [ev] in H;
        apply list_elem_of_singleton in H; try discriminate H
    | H : _ ∈ trace (lift _) |- _ => apply elem_of_nil in H; destruct H
    | H : _ ∈ trace (mret _) |- _ => apply elem_of_nil in H; destruct H
    | H : _ ∈ trace (if ?b then _ else _) |- _ => destruct b eqn:?
    | H : _ ∈ trace (match ?x with _ => _ end) |- _ => destruct x eqn:?
    end.

Lemma truediv_one (b : Z) (q : Q) :
  truediv 1 b = Ok q -> b ≠ 0%Z /\ q = (1 / inject_Z b)%Q.
Proof.
  unfold truediv. destruct (Z.eqb_spec b 0) as [Hb|Hb]; [discriminate|].
  intros H. injection H as <-. split; [exact Hb|reflexivity].
Qed.

Lemma normal__trace (env : Env) (config : AutoConfig) (w : list Q) (ev : event) :
  ev ∈ trace (normal_ env config w) ->
  (hidden_size config + 1 ≠ 0)%Z /\
  ev = EvNormal 0 (1 / inject_Z (hidden_size config + 1)).
Proof.
  unfold normal_. intros H. trace_inv.
  match goal with
  | Hq : outcome (lift (truediv _ _)) = Ok _ |- _ =>
      apply truediv_one in Hq as [Hb ->]
  end.
  split; [exact Hb|assumption].
Qed.

Lemma normal__draws (env : Env) (config : AutoConfig) (w w' : list Q) :
  outcome (normal_ env config w) = Ok w' ->
  EvNormal 0 (1 / inject_Z (hidden_size config + 1)) ∈ trace (normal_ env config w).
Proof.
  unfold normal_. intros H.
  apply outcome_bind_inv in H as (q & Hq & _).
  pose proof Hq as Hq'. apply truediv_one in Hq' as [_ ->].
  apply elem_of_trace_bind_r with (a := (1 / inject_Z (hidden_size config + 1))%Q);
    [exact Hq|].
  apply elem_of_trace_bind_l. apply list_elem_of_singleton. reflexivity.
Qed.

Lemma resolve_class_no_draw (env : Env) (path model_type : string)
    (config : AutoConfig) (m s : Q) :
  EvNormal m s ∉ trace (resolve_class env path model_type config).
Proof.
  unfold resolve_class, try_except. intros H.
  destruct (outcome (lift (from_registry env model_type config))); cbn [trace] in H.
  - trace_inv.
  - apply elem_of_app in H as [H|H]; [trace_inv|].
    unfold from_modelling_file in H. trace_inv.
Qed.

Lemma from_pretrained_no_draw (env : Env) (cls : cls_class) (path : string)
    (config : AutoConfig) (m s : Q) :
  EvNormal m s ∉ trace (from_pretrained env cls path config).
Proof. unfold from_pretrained. intros H. trace_inv. Qed.

(** C1.  With [init_value_head] set, every [normal_] call the function
    makes has mean 0 and standard deviation [1 / (hidden_size + 1)], and
    the function makes that call whenever it returns and either ZeRO-3 is
    off or the process has rank 0. *)
Theorem value_head_init_std
    (env : Env) (model_name_or_path model_type : string) (kw : Kw.t)
    (c0 : AutoConfig) :
  AutoConfig_from_pretrained env model_name_or_path = Ok c0 ->
  Kw.init_value_head kw = true ->
  let run := get_llm_for_sequence_regression env model_name_or_path model_type kw in
  (forall m s, EvNormal m s ∈ trace run ->
     m = 0%Q /\ (hidden_size c0 + 1 ≠ 0)%Z /\ s = (1 / inject_Z (hidden_size c0 + 1))%Q)
  /\ (forall model,
        outcome run = Ok model ->
        zero3 (Kw.ds_config kw) = Ok false \/ get_rank env = 0%Z ->
        EvNormal 0 (1 / inject_Z (hidden_size c0 + 1)) ∈ trace run).
Proof.
  intros Hcfg Hinit run. subst run. unfold get_llm_for_sequence_regression.
  split.
  - intros m s H.
    apply elem_of_trace_bind_inv in H as [H | (? & _ & H)]; [trace_inv|].
    apply elem_of_trace_bind_inv in H as [H | (? & _ & H)]; [trace_inv|].
    rewrite Hcfg in H.
    apply elem_of_trace_bind_inv in H as [H | (c & Hc & H)]; [trace_inv|].
    injection Hc as <-. cbn zeta in H.
    apply elem_of_trace_bind_inv in H as [H | (cls & _ & H)];
      [exfalso; exact (resolve_class_no_draw _ _ _ _ _ _ H)|].
    unfold load_and_adapt in H. rewrite Hinit in H.
    apply elem_of_trace_bind_inv in H as [H | (dschf & _ & H)]; [trace_inv|].
    apply elem_of_trace_bind_inv in H as [H | (? & _ & H)]; [trace_inv|].
    apply elem_of_trace_bind_inv in H as [H | (model & _ & H)];
      [exfalso; exact (from_pretrained_no_draw _ _ _ _ _ _ H)|].
    apply elem_of_trace_bind_inv in H as [H | (? & _ & H)]; [trace_inv|].
    apply elem_of_trace_bind_inv in H as [H | (? & _ & H)]; [trace_inv|].
    apply elem_of_trace_bind_inv in H as [H | (? & _ & H)]; [|trace_inv].
    unfold initialize_value_head in H.
    destruct dschf.
    + apply elem_of_trace_bind_inv in H as [H | (? & _ & H)]; [trace_inv|].
      apply elem_of_trace_bind_inv in H as [H | (? & _ & H)]; [trace_inv|].
      apply elem_of_trace_bind_inv in H as [H | (? & _ & H)]; [|trace_inv].
      destruct (get_rank env =? 0)%Z; [|trace_inv].
      apply normal__trace in H as [Hb Hev]. injection Hev as Hm Hs.
      split; [exact Hm|]. split; [exact Hb|exact Hs].
    + apply normal__trace in H as [Hb Hev]. injection Hev as Hm Hs.
      split; [exact Hm|]. split; [exact Hb|exact Hs].
  - intros model Hok Hrank.
    apply outcome_bind_inv in Hok as ([] & H1 & Hok).
    apply elem_of_trace_bind_r with (a := tt); [exact H1|].
    apply outcome_bind_inv in Hok as ([] & H2 & Hok).
    apply elem_of_trace_bind_r with (a := tt); [exact H2|].
    rewrite Hcfg in Hok |- *.
    apply outcome_bind_inv in Hok as (c & Hc & Hok).
    apply elem_of_trace_bind_r with (a := c); [exact Hc|].
    injection Hc as <-. cbn zeta in Hok |- *.
    apply outcome_bind_inv in Hok as (cls & Hcls & Hok).
    apply elem_of_trace_bind_r with (a := cls); [exact Hcls|].
    unfold load_and_adapt in Hok |- *. rewrite Hinit in Hok |- *.
    apply outcome_bind_inv in Hok as (dschf & Hz & Hok).
    apply elem_of_trace_bind_r with (a := dschf); [exact Hz|].
    apply outcome_bind_inv in Hok as (u & Hu & Hok).
    apply elem_of_trace_bind_r with (a := u); [exact Hu|].
    apply outcome_bind_inv in Hok as (model0 & Hm & Hok).
    apply elem_of_trace_bind_r with (a := model0); [exact Hm|].
    apply outcome_bind_inv in Hok as (mc & Hmc & Hok).
    apply elem_of_trace_bind_r with (a := mc); [exact Hmc|].
    apply outcome_bind_inv in Hok as (lora & Hl & Hok).
    apply elem_of_trace_bind_r with (a := lora); [exact Hl|].
    apply outcome_bind_inv in Hok as (w & Hw & _).
    apply elem_of_trace_bind_l.
    unfold initialize_value_head in Hw |- *.
    destruct dschf.
    + assert (Hr : (get_rank env =? 0)%Z = true).
      { destruct Hrank as [Hz'|Hr].
        - cbn in Hz. rewrite Hz' in Hz. discriminate.
        - apply Z.eqb_eq, Hr. }
      rewrite Hr in Hw |- *.
      apply elem_of_trace_bind_r with (a := tt); [reflexivity|].
      apply elem_of_trace_bind_r with (a := tt); [reflexivity|].
      apply outcome_bind_inv in Hw as (? & _ & Hw).
      apply outcome_bind_inv in Hw as (? & _ & Hw).
      apply outcome_bind_inv in Hw as (w' & Hw' & _).
      apply elem_of_trace_bind_l.
      exact (normal__draws _ _ _ _ Hw').
    + exact (normal__draws _ _ _ _ Hw).
Qed.

(** C1, as stated, fails.  At a hidden size of 3 the function calls
    [normal_] once, with a standard deviation of 1/4, and 1/4 is not
    [1 / sqrt (3 + 1)]. *)
Lemma value_head_std_is_not_inverse_sqrt :
  trace (get_llm_for_sequence_regression (sample_env 3 None true)
           "ckpt" "reward" (sample_kw true))
    = [EvAutoConfigFromPretrained "ckpt";
       EvFromPretrained (RewardClass "LlamaPreTrainedModel" "LlamaModel") "ckpt";
       EvNormal 0 (1 # 4)]
  /\ hidden_size (sample_config 3 None) = 3%Z
  /\ Q2R (1 # 4) ≠ (1 / sqrt (IZR (3 + 1)))%R.
Proof.
  split; [vm_compute; reflexivity|]. split; [reflexivity|].
  change (3 + 1)%Z with 4%Z.
  replace (IZR 4) with (2 * 2)%R by lra.
  rewrite sqrt_square by lra.
  unfold Q2R. simpl. intros H. lra.
Qed.

(** ** The theorems at the sample inputs *)

Ltac in_list := repeat first [ apply list_elem_of_here | apply list_elem_of_further ].
Ltac zero_one := repeat (constructor; [first [left; reflexivity | right; reflexivity]|]);
                 constructor.

Lemma value_head_init_std_witness :
  AutoConfig_from_pretrained (sample_env 3 None true) "ckpt" = Ok (sample_config 3 None)
  /\ EvNormal 0 (1 / inject_Z (3 + 1))
       ∈ trace (get_llm_for_sequence_regression (sample_env 3 None true)
                  "ckpt" "reward" (sample_kw true)).
Proof.
  split; [reflexivity|].
  refine (proj2 (value_head_init_std (sample_env 3 None true) "ckpt" "reward"
                   (sample_kw true) (sample_config 3 None) eq_refl eq_refl) _ _ _).
  - vm_compute. reflexivity.
  - left. reflexivity.
Defined.

Lemma reward_training_last_position_witness :
  exists reward,
    RewardModel.forward (sample_model true true) sample_ids None false
      = Ok (reward_returned false reward sample_outputs) /\
    Forall2 (selects_position [1%Q] (3 - 1)) (last_hidden_state sample_outputs) reward.
Proof.
  apply (reward_training_last_position (sample_model true true) sample_ids None false
           sample_outputs 3).
  - reflexivity.
  - reflexivity.
  - repeat constructor.
  - repeat constructor.
  - lia.
Defined.

Lemma reward_eval_last_real_token_witness :
  exists selected,
    Forall3 (selects_last_one [1%Q]) sample_mask (last_hidden_state sample_outputs)
      selected /\
    RewardModel.forward (sample_model true false) sample_ids (Some sample_mask) false
      = Ok (reward_returned false
              (fmap (M:=list) (standardize (sample_model true false)) selected)
              sample_outputs).
Proof.
  apply (reward_eval_last_real_token (sample_model true false) sample_ids sample_mask
           false sample_outputs 3).
  - reflexivity.
  - reflexivity.
  - repeat constructor.
  - constructor; [|constructor; [|constructor]];
      (split; [reflexivity|]; split; [reflexivity|]; split; [zero_one|in_list]).
Defined.

Lemma invalid_model_type_asserts_witness :
  get_llm_for_sequence_regression (sample_env 3 None true) "ckpt" "actor" (sample_kw false)
    = mkM [] (Raise (AssertionError
                       "invalid model_type: actor, should be critic or reward.")).
Proof.
  apply (invalid_model_type_asserts (sample_env 3 None true) "ckpt" "actor"
           (sample_kw false)); discriminate.
Defined.


(** * Further properties of the forward passes *)

(** ** Evaluation mode on any integer mask *)

Lemma argmax_row_last_max (mk : list Z) :
  mk ≠ [] ->
  exists a : nat,
    Torch.argmax_row (reverse mk) = Ok (Z.of_nat a) /\
    (a < length mk)%nat /\
    last_max mk (length mk - 1 - a).
Proof.
  intros Hne.
  destruct (reverse mk) as [|x l] eqn:Hrev.
  { apply (f_equal length) in Hrev. rewrite length_reverse in Hrev.
    destruct mk; [congruence|discriminate]. }
  assert (Hlen : length (x :: l) = length mk) by (rewrite <- Hrev; apply length_reverse).
  unfold Torch.argmax_row.
  destruct (Torch.first_max x l) as [m a] eqn:Hfm. simpl snd.
  destruct (first_max_spec l x m a Hfm) as (Hat & Hle & Hlt).
  pose proof (lookup_lt_Some _ _ _ Hat) as Halt. rewrite Hlen in Halt.
  assert (Hrl : forall i, (i < length mk)%nat ->
                          (x :: l) !! i = mk !! (length mk - S i)%nat).
  { intros i Hi. rewrite <- Hrev. apply reverse_lookup. exact Hi. }
  exists a. split; [reflexivity|]. split; [exact Halt|].
  exists m. split; [|split].
  - rewrite Hrl in Hat by lia.
    replace (length mk - 1 - a)%nat with (length mk - S a)%nat by lia. exact Hat.
  - intros j y Hj. pose proof (lookup_lt_Some _ _ _ Hj) as Hjlt.
    apply (Hle (length mk - S j)%nat). rewrite Hrl by lia.
    replace (length mk - S (length mk - S j))%nat with j by lia. exact Hj.
  - intros j Hj Hmj.
    pose proof (lookup_lt_Some _ _ _ Hmj) as Hjlt.
    assert (Hlt' : (m < m)%Z); [|lia].
    apply (Hlt (length mk - S j)%nat); [lia|].
    rewrite Hrl by lia.
    replace (length mk - S (length mk - S j))%nat with j by lia. exact Hmj.
Qed.

Lemma eval_select_rows_max w (L : nat) (am : list (list Z)) (hs : list (list (list Q))) :
  (0 < L)%nat ->
  Forall2 (fun mk hk => length mk = L /\ length hk = L) am hs ->
  exists a selected,
    Torch.argmax (Torch.fliplr am) = Ok a /\
    Torch.gather (projections w hs)
      (fmap (M:=list) (fun x => Z.of_nat L - 1 - x)%Z a) = Ok selected /\
    Forall3 (selects_last_max w) am hs selected.
Proof.
  intros HL.
  induction 1 as [|mk hk am hs (Hlm & Hlh) _ (a & sel & Harg & Hg & Hsel)].
  - exists [], []. repeat split; constructor.
  - destruct (argmax_row_last_max mk) as (a0 & Ha0 & Hlt & Hlast).
    { destruct mk; [simpl in Hlm; lia|discriminate]. }
    rewrite Hlm in Hlt, Hlast.
    destruct (lookup_lt_is_Some_2 hk (L - 1 - a0)%nat) as [h Hh]; [lia|].
    exists (Z.of_nat a0 :: a), (Torch.dot w h :: sel). split; [|split].
    + unfold Torch.argmax, Torch.fliplr. rewrite fmap_cons.
      apply mapM_cons_Ok; assumption.
    + unfold projections. rewrite !fmap_cons. cbn.
      destruct (Z.ltb_spec (Z.of_nat L - 1 - Z.of_nat a0) 0) as [Hneg|_]; [lia|].
      replace (Z.to_nat (Z.of_nat L - 1 - Z.of_nat a0)) with (L - 1 - a0)%nat by lia.
      rewrite list_lookup_fmap, Hh. cbn.
      unfold projections in Hg. rewrite Hg. reflexivity.
    + constructor; [|exact Hsel]. exists (L - 1 - a0)%nat, h. auto.
Qed.

Lemma gather_nil (values : list (list Q)) : Torch.gather values [] = Ok [].
Proof. destruct values; reflexivity. Qed.

(** Lines 184-189 put together, for a mask of rows of length [L]. *)
Lemma reward_eval_assemble
    (self : LLMForSequenceRegression) (input_ids am : list (list Z))
    (return_output : bool) (outs : Outputs) (L : nat) (a : list Z) (selected : list Q) :
  training self = false ->
  base_model self false input_ids (Some am) = Ok outs ->
  hidden_ok (value_head self) (last_hidden_state outs) ->
  Forall (fun mk => length mk = L) am ->
  Torch.argmax (Torch.fliplr am) = Ok a ->
  Torch.gather (projections (value_head self) (last_hidden_state outs))
    (fmap (M:=list) (fun x => Z.of_nat L - 1 - x)%Z a) = Ok selected ->
  RewardModel.forward self input_ids (Some am) return_output
    = Ok (reward_returned return_output
            (if normalize_reward self
             then fmap (M:=list) (standardize self) selected
             else selected) outs).
Proof.
  intros Heval Hbb Hhid Hlen Harg Hg.
  unfold RewardModel.forward. rewrite Heval, Hbb. cbn.
  rewrite (project_ok _ _ Hhid). cbn. rewrite Harg. cbn.
  destruct am as [|mk am'].
  - cbn in Harg. injection Harg as <-. cbn in Hg |- *.
    rewrite gather_nil in Hg |- *. injection Hg as <-. cbn.
    unfold reward_returned.
    destruct (normalize_reward self), return_output; reflexivity.
  - assert (Hne : mk :: am' ≠ []) by discriminate.
    rewrite (size1_rows L _ Hne Hlen), Hg. cbn. unfold reward_returned.
    destruct (normalize_reward self), return_output; reflexivity.
Qed.

Lemma Forall2_lengths_l {A B} (P : A -> Prop) (Q' : A -> B -> Prop)
    (l : list A) (k : list B) :
  (forall x y, Q' x y -> P x) -> Forall2 Q' l k -> Forall P l.
Proof. intros HPQ. induction 1; constructor; eauto. Qed.

(** X1.  In evaluation mode, on a mask of any integers whose rows have the
    length [L >= 1] of the sequence, the reward selected for a row is the
    projection at the highest index that holds the row's maximum. *)
Theorem reward_eval_selects_last_maximum
    (self : LLMForSequenceRegression) (input_ids am : list (list Z))
    (return_output : bool) (outs : Outputs) (L : nat) :
  training self = false ->
  base_model self false input_ids (Some am) = Ok outs ->
  hidden_ok (value_head self) (last_hidden_state outs) ->
  (0 < L)%nat ->
  Forall2 (fun mk hk => length mk = L /\ length hk = L) am (last_hidden_state outs) ->
  exists selected,
    Forall3 (selects_last_max (value_head self)) am (last_hidden_state outs) selected /\
    RewardModel.forward self input_ids (Some am) return_output
      = Ok (reward_returned return_output
              (if normalize_reward self
               then fmap (M:=list) (standardize self) selected
               else selected) outs).
Proof.
  intros Heval Hbb Hhid HL Hrows.
  destruct (eval_select_rows_max (value_head self) L _ _ HL Hrows)
    as (a & selected & Harg & Hg & Hsel).
  exists selected. split; [exact Hsel|].
  eapply reward_eval_assemble; eauto.
  eapply Forall2_lengths_l; [|exact Hrows]. intros x y [Hx _]. exact Hx.
Qed.

Lemma reward_eval_selects_last_maximum_witness :
  exists selected,
    Forall3 (selects_last_max [1%Q]) [[2; 0; 2]; [0; 0; 0]]%Z
      (last_hidden_state sample_outputs) selected /\
    RewardModel.forward (sample_model false false) sample_ids
      (Some [[2; 0; 2]; [0; 0; 0]]%Z) false
      = Ok (reward_returned false selected sample_outputs).
Proof.
  apply (reward_eval_selects_last_maximum (sample_model false false) sample_ids
           [[2; 0; 2]; [0; 0; 0]]%Z false sample_outputs 3).
  - reflexivity.
  - reflexivity.
  - repeat constructor.
  - lia.
  - repeat constructor.
Defined.

(** ** Evaluation mode and training mode on left-padded batches *)

Lemma last_max_of_last_entry (mk : list Z) (i : nat) :
  last_entry_maximal mk -> last_max mk i -> i = (length mk - 1)%nat.
Proof.
  intros (m' & Hlast & Hall) (m & Hi & Hmax & Hafter).
  rewrite last_lookup in Hlast.
  replace (pred (length mk)) with (length mk - 1)%nat in Hlast by lia.
  pose proof (lookup_lt_Some _ _ _ Hi) as Hlt.
  assert (Hmm : m = m').
  { rewrite Forall_lookup in Hall.
    pose proof (Hall _ _ Hi). pose proof (Hmax _ _ Hlast). lia. }
  subst m'.
  destruct (decide (i = length mk - 1)%nat) as [|Hne]; [assumption|].
  exfalso. apply (Hafter (length mk - 1)%nat); [lia|exact Hlast].
Qed.

Lemma selects_position_unique w p (hs : list (list (list Q))) (x y : list Q) :
  Forall2 (selects_position w p) hs x ->
  Forall2 (selects_position w p) hs y ->
  x = y.
Proof.
  intros Hx. revert y. induction Hx as [|hk a hs x (h & Hh & ->) _ IH]; intros y Hy.
  - inversion Hy. reflexivity.
  - inversion Hy as [|? b ? y' (h' & Hh' & ->) Hy']; subst.
    rewrite Hh in Hh'. injection Hh' as <-. f_equal. apply IH, Hy'.
Qed.

(** X2.  When the last entry of every mask row is a maximum of the row (a
    left-padded mask of 0s and 1s, or a row of padding only), evaluation
    mode without normalization returns what training mode returns,
    provided the backbone returns the same outputs in both modes. *)
Theorem reward_eval_matches_training_left_padded
    (bb : Backbone) (w : list Q) (mu sigma : Q) (normalize : bool)
    (input_ids am : list (list Z)) (return_output : bool) (outs : Outputs) (L : nat) :
  bb true input_ids (Some am) = Ok outs ->
  bb false input_ids (Some am) = Ok outs ->
  hidden_ok w (last_hidden_state outs) ->
  Forall2 (fun mk hk => length mk = L /\ length hk = L /\ last_entry_maximal mk)
    am (last_hidden_state outs) ->
  RewardModel.forward (instance bb w mu sigma false false)
      input_ids (Some am) return_output
    = RewardModel.forward (instance bb w mu sigma normalize true)
        input_ids (Some am) return_output.
Proof.
  intros Htrain Heval Hhid Hrows.
  destruct am as [|mk am'].
  { apply Forall2_nil_inv_l in Hrows. unfold RewardModel.forward, instance. cbn.
    rewrite Htrain, Heval. cbn. rewrite Hrows. reflexivity. }
  assert (HL : (0 < L)%nat).
  { inversion Hrows as [|? ? ? ? (Hlen & _ & (m & Hlast & _))]; subst.
    destruct mk; [discriminate|simpl; lia]. }
  assert (Hlens : Forall2 (fun mk hk => length mk = L /\ length hk = L)
                    (mk :: am') (last_hidden_state outs)).
  { eapply Forall2_impl; [exact Hrows|]. intros ? ? (? & ? & _). auto. }
  destruct (eval_select_rows_max w L _ _ HL Hlens) as (a & selected & Harg & Hg & Hsel).
  assert (Hmk : Forall (fun mk0 => length mk0 = L) (mk :: am')).
  { eapply Forall2_lengths_l; [|exact Hlens]. intros x y [Hx _]. exact Hx. }
  rewrite (reward_eval_assemble (instance bb w mu sigma false false) input_ids
             (mk :: am') return_output outs L a selected eq_refl Heval Hhid Hmk Harg Hg).
  cbn [normalize_reward instance].
  assert (Hhs : Forall (fun row => length row = L) (last_hidden_state outs)).
  { clear -Hrows. induction Hrows as [|? ? ? ? (_ & ? & _)]; constructor; assumption. }
  destruct (last_position_rows w L _ HL Hhs) as (reward & Hm & Hrew).
  assert (Hpos : Forall2 (selects_position w (L - 1)) (last_hidden_state outs) selected).
  { clear -Hrows Hsel. cbn in Hsel.
    revert Hrows. induction Hsel as [|mk0 hk x am0 hs0 sel0 (i & h & Hi & Hh & ->) _ IH];
      intros Hrows; inversion Hrows as [|? ? ? ? (Hlm & _ & Hmax) Hrest]; subst;
      constructor; [|apply IH, Hrest].
    apply (last_max_of_last_entry _ _ Hmax) in Hi. subst i.
    exists h. auto. }
  rewrite (selects_position_unique _ _ _ _ _ Hpos Hrew).
  unfold RewardModel.forward, instance. cbn. rewrite Htrain. cbn.
  rewrite (project_ok _ _ Hhid). cbn. rewrite Hm. cbn.
  unfold reward_returned. destruct return_output; reflexivity.
Qed.

Lemma reward_eval_matches_training_left_padded_witness :
  RewardModel.forward (instance id_backbone [1%Q] 1 2 false false)
      sample_ids (Some [[0; 1; 1]; [0; 0; 0]]%Z) false
    = RewardModel.forward (instance id_backbone [1%Q] 1 2 true true)
        sample_ids (Some [[0; 1; 1]; [0; 0; 0]]%Z) false.
Proof.
  apply (reward_eval_matches_training_left_padded id_backbone [1%Q] 1 2 true
           sample_ids [[0; 1; 1]; [0; 0; 0]]%Z false sample_outputs 3).
  - reflexivity.
  - reflexivity.
  - repeat constructor.
  - constructor; [|constructor; [|constructor]].
    + split; [reflexivity|]. split; [reflexivity|].
      exists 1%Z. split; [reflexivity|]. repeat constructor; lia.
    + split; [reflexivity|]. split; [reflexivity|].
      exists 0%Z. split; [reflexivity|]. repeat constructor; lia.
Defined.

(** ** Evaluation mode needs the mask *)

(** X3.  In evaluation mode a call without an attention mask raises: an
    [AttributeError] at [attention_mask.size(1)], unless the backbone or the
    value head raised before.  Training mode accepts the same call. *)
Theorem reward_eval_requires_attention_mask
    (bb : Backbone) (w : list Q) (mu sigma : Q) (normalize : bool)
    (input_ids : list (list Z)) (return_output : bool) :
  RewardModel.forward (instance bb w mu sigma normalize false)
      input_ids None return_output
    = (outputs ← bb false input_ids None;
       _ ← project w (last_hidden_state outputs);
       Raise AttributeError)
  /\ Py.is_ok (RewardModel.forward (instance bb w mu sigma normalize false)
                 input_ids None return_output) = false
  /\ RewardModel.forward (instance id_backbone [1%Q] mu sigma normalize true)
       sample_ids None false
     = Ok (RewardModel.Reward [inject_Z 30; inject_Z 60]).
Proof.
  unfold RewardModel.forward, instance. cbn.
  destruct (bb false input_ids None) as [outs|e]; cbn; [|repeat split; reflexivity].
  destruct (project w (last_hidden_state outs)) as [values|e]; cbn;
    repeat split; reflexivity.
Qed.

(** ** What [return_output] changes *)

(** X4.  [return_output] changes neither the reward nor whether the reward
    model raises; when set, the outputs returned are the backbone's. *)
Theorem reward_return_output_only_adds_outputs
    (self : LLMForSequenceRegression) (input_ids : list (list Z))
    (attention_mask : option (list (list Z))) :
  result_map reward_of (RewardModel.forward self input_ids attention_mask true)
    = result_map reward_of (RewardModel.forward self input_ids attention_mask false)
  /\ result_map reward_outputs_of
       (RewardModel.forward self input_ids attention_mask true)
     = (r ← RewardModel.forward self input_ids attention_mask false;
        outputs ← base_model self (training self) input_ids attention_mask;
        Ok (Some outputs)).
Proof.
  unfold RewardModel.forward.
  destruct (base_model self (training self) input_ids attention_mask) as [outs|e]; cbn;
    [|split; reflexivity].
  destruct (project (value_head self) (last_hidden_state outs)) as [values|e]; cbn;
    [|split; reflexivity].
  match goal with
  | |- context [ mbind _ ?m ] => destruct m as [reward|e]; cbn; split; reflexivity
  end.
Qed.

(** X5.  [return_output] changes neither the values nor whether the critic
    raises; when set, the outputs returned are the backbone's. *)
Theorem critic_return_output_only_adds_outputs
    (self : LLMForSequenceRegression) (input_ids : list (list Z))
    (action_mask attention_mask : option (list (list Z))) :
  result_map values_of
      (CriticModel.forward self input_ids action_mask attention_mask true)
    = result_map values_of
        (CriticModel.forward self input_ids action_mask attention_mask false)
  /\ (r ← CriticModel.forward self input_ids action_mask attention_mask true;
      match r with
      | CriticModel.ValuesOutputs _ o => Ok (Some o)
      | _ => Ok None
      end)
     = (r ← CriticModel.forward self input_ids action_mask attention_mask false;
        outputs ← base_model self (training self) input_ids attention_mask;
        Ok (Some outputs)).
Proof.
  unfold CriticModel.forward.
  destruct (base_model self (training self) input_ids attention_mask) as [outs|e]; cbn;
    [|split; reflexivity].
  destruct (project (value_head self) (last_hidden_state outs)) as [values|e]; cbn;
    [|split; reflexivity].
  destruct action_mask as [am|]; cbn; split; reflexivity.
Qed.

(** ** The critic's slice for every number of actions *)

Lemma kept_values_slices {A} (L n : nat) (row : list A) :
  length row = L ->
  Py.slice_from (- Z.of_nat n) (Py.slice_to (-1) row) = kept_values L n row.
Proof.
  intros Hlen. unfold kept_values.
  destruct (Nat.eqb_spec n 0) as [->|Hn]; cbn [orb].
  - rewrite slice_to_minus_one, Hlen. unfold Py.slice_from.
    change (- Z.of_nat 0)%Z with (- 0)%Z. rewrite slice_bound_zero. reflexivity.
  - destruct (Nat.ltb_spec (L - 1) n) as [Hbig|Hsmall].
    + rewrite slice_to_minus_one, Hlen. unfold Py.slice_from.
      assert (Hb : Py.slice_bound (length (take (L - 1) row)) (- Z.of_nat n) = 0%nat).
      { rewrite length_take, Hlen. unfold Py.slice_bound.
        destruct (Z.ltb_spec (- Z.of_nat n) 0); lia. }
      rewrite Hb. reflexivity.
    + apply action_window_slices; [exact Hlen|lia|lia].
Qed.

Lemma kept_values_length {A} (L n : nat) (row : list A) :
  length row = L ->
  length (kept_values L n row)
  = if ((n =? 0)%nat || (L - 1 <? n)%nat)%bool then (L - 1)%nat else n.
Proof.
  intros Hlen. unfold kept_values.
  destruct ((n =? 0)%nat || (L - 1 <? n)%nat)%bool eqn:Hc.
  - rewrite length_take. lia.
  - apply orb_false_iff in Hc as [_ Hc]. apply Nat.ltb_ge in Hc.
    apply action_window_length; assumption.
Qed.

(** X6.  For an [action_mask] of [n] columns and a sequence of length [L]
    the critic returns, per row, the last [n] of the [L - 1] per-token
    values when [1 <= n <= L - 1], and all [L - 1] of them when [n = 0] or
    [n > L - 1]; it never raises on the number of actions. *)
Theorem critic_values_kept_for_every_width
    (self : LLMForSequenceRegression) (input_ids am : list (list Z))
    (attention_mask : option (list (list Z))) (outs : Outputs) (L n : nat) :
  base_model self (training self) input_ids attention_mask = Ok outs ->
  hidden_ok (value_head self) (last_hidden_state outs) ->
  Forall (fun row => length row = L) (last_hidden_state outs) ->
  Torch.size1 am = Z.of_nat n ->
  normalize_reward self = false ->
  CriticModel.forward self input_ids (Some am) attention_mask false
    = Ok (CriticModel.Values
            (fmap (M:=list) (kept_values L n)
               (projections (value_head self) (last_hidden_state outs))))
  /\ Forall (fun row => length row
                        = if ((n =? 0)%nat || (L - 1 <? n)%nat)%bool
                          then (L - 1)%nat else n)
       (fmap (M:=list) (kept_values L n)
          (projections (value_head self) (last_hidden_state outs))).
Proof.
  intros Hbb Hhid Hrows Hsize Hnorm.
  assert (Hplen : Forall (fun row => length row = L)
                    (projections (value_head self) (last_hidden_state outs))).
  { unfold projections. rewrite Forall_fmap.
    eapply Forall_impl; [exact Hrows|]. intros row Hrow. cbn.
    rewrite length_fmap. exact Hrow. }
  split.
  - unfold CriticModel.forward. rewrite Hbb. cbn.
    rewrite (project_ok _ _ Hhid). cbn. rewrite Hnorm, Hsize. cbn.
    do 2 f_equal. rewrite <- list_fmap_compose.
    apply Forall_fmap_ext. eapply Forall_impl; [exact Hplen|].
    intros row Hrow. cbn. apply kept_values_slices; assumption.
  - rewrite Forall_fmap. eapply Forall_impl; [exact Hplen|].
    intros row Hrow. cbn. apply kept_values_length; assumption.
Qed.

Lemma critic_values_kept_for_every_width_witness :
  CriticModel.forward (sample_model false false) sample_ids
      (Some [[1; 1; 1; 1; 1]; [1; 1; 1; 1; 1]]%Z) None false
    = Ok (CriticModel.Values
            (fmap (M:=list) (kept_values 3 5)
               (projections [1%Q] (last_hidden_state sample_outputs)))).
Proof.
  apply (critic_values_kept_for_every_width (sample_model false false) sample_ids
           [[1; 1; 1; 1; 1]; [1; 1; 1; 1; 1]]%Z None sample_outputs 3 5).
  - reflexivity.
  - repeat constructor.
  - repeat constructor.
  - reflexivity.
  - reflexivity.
Defined.

(** ** When [__init__] raises *)


(** * Further properties of the construction *)

(** ** What each step records and returns *)

Lemma from_pretrained_trace (env : Env) (cls : cls_class) (path : string)
    (cfg : AutoConfig) (ev : event) :
  ev ∈ trace (from_pretrained env cls path cfg) -> ev = EvFromPretrained cls path.
Proof. unfold from_pretrained. intros H. trace_inv. assumption. Qed.

Lemma from_pretrained_ok (env : Env) (cls : cls_class) (path : string)
    (cfg : AutoConfig) (m0 : LLMForSequenceRegression) :
  outcome (from_pretrained env cls path cfg) = Ok m0 ->
  exists self bb' w,
    init_common (pretrained_init env (cls_pretrained cls))
      (new_backbone env (cls_llm cls)) (linear_reset env) (buffer_dtype env) cfg
      = Ok self /\
    load_state_dict env path self = Ok (bb', w) /\
    m0 = {| base_model := bb'; value_head := w;
            normalize_reward := normalize_reward self;
            mean := mean self; std := std self; training := false |}.
Proof.
  unfold from_pretrained. intros H.
  apply outcome_bind_inv in H as ([] & _ & H).
  apply outcome_bind_inv in H as (self & Hself & H).
  apply outcome_bind_inv in H as ([bb' w] & Hload & H).
  cbn in H. injection H as <-.
  exists self, bb', w. repeat split; try assumption.
  destruct cls; exact Hself.
Qed.

Lemma resolve_class_trace (env : Env) (path model_type : string)
    (cfg : AutoConfig) (ev : event) :
  ev ∈ trace (resolve_class env path model_type cfg) ->
  fallback_event path ev /\ exists e, from_registry env model_type cfg = Raise e.
Proof.
  unfold resolve_class, try_except. intros H.
  destruct (from_registry env model_type cfg) as [cls|e] eqn:Hreg;
    cbn [outcome lift trace] in H.
  - apply elem_of_nil in H. destruct H.
  - split; [|eauto]. cbn [app] in H.
    unfold from_modelling_file in H. unfold fallback_event. trace_inv; eauto.
Qed.

Lemma resolve_class_ok (env : Env) (path model_type : string)
    (cfg : AutoConfig) (cls : cls_class) :
  outcome (resolve_class env path model_type cfg) = Ok cls ->
  exists base_pretrained_class base_class,
    make_class env model_type base_pretrained_class base_class = Ok cls.
Proof.
  unfold resolve_class, try_except. intros H.
  destruct (from_registry env model_type cfg) as [cls'|e] eqn:Hreg;
    cbn [outcome lift trace] in H.
  - injection H as <-. unfold from_registry in Hreg.
    destruct (AutoModel_model_mapping env (config_class cfg)) as [b|]; [|discriminate].
    cbn in Hreg. eauto.
  - unfold from_modelling_file in H.
    apply outcome_bind_inv in H as ([] & _ & H).
    apply outcome_bind_inv in H as ([[mf an] pn] & _ & H).
    apply outcome_bind_inv in H as ([] & _ & H).
    apply outcome_bind_inv in H as ([] & _ & H).
    apply outcome_bind_inv in H as (p & _ & H).
    apply outcome_bind_inv in H as ([] & _ & H).
    apply outcome_bind_inv in H as (b & _ & H).
    cbn [outcome lift] in H. eauto.
Qed.

Lemma make_class_ok (env : Env) (model_type : string) (p b : pyclass) (cls : cls_class) :
  make_class env model_type p b = Ok cls ->
  cls = if String.eqb model_type "reward" then RewardClass p b else CriticClass p b.
Proof.
  unfold make_class, _get_reward_model, _get_critic_model.
  destruct (String.eqb model_type "reward"), (class_statement env p); cbn;
    intros H; try discriminate; injection H as <-; reflexivity.
Qed.

Lemma initialize_value_head_trace (env : Env) (dschf : bool) (cfg : AutoConfig)
    (w : list Q) (ev : event) :
  ev ∈ trace (initialize_value_head env dschf cfg w) ->
  (dschf = true /\
   (ev = EvLoggerInfo "initialize value_head for ZeRO-3 reward model training."
    \/ ev = EvGatheredParameters 0))
  \/ ((dschf = false \/ get_rank env = 0%Z) /\
      ev = EvNormal 0 (1 / inject_Z (hidden_size cfg + 1))).
Proof.
  unfold initialize_value_head. intros H. destruct dschf.
  - apply elem_of_trace_bind_inv in H as [H | (? & _ & H)]; [trace_inv; auto|].
    apply elem_of_trace_bind_inv in H as [H | (? & _ & H)]; [trace_inv; auto|].
    apply elem_of_trace_bind_inv in H as [H | (? & _ & H)]; [|trace_inv].
    destruct (Z.eqb_spec (get_rank env) 0) as [Hr|Hr]; [|trace_inv].
    apply normal__trace in H as [_ ->]. auto.
  - apply normal__trace in H as [_ ->]. auto.
Qed.

Lemma load_and_adapt_trace (env : Env) (path : string) (kw : Kw.t)
    (cfg : AutoConfig) (cls : cls_class) (ev : event) :
  ev ∈ trace (load_and_adapt env path kw cfg cls) ->
  exists dschf,
    zero3 (Kw.ds_config kw) = Ok dschf /\
    ((ev = EvHfDeepSpeedConfig /\ dschf = true)
     \/ ev = EvFromPretrained cls path
     \/ exists m0,
          outcome (from_pretrained env cls path cfg) = Ok m0 /\
          ((ev = EvPrint "[Mixtral 8x7b] set output_router_logits as True"
            /\ is_Some (output_router_logits cfg))
           \/ (ev = EvGetPeftModel (lora_config_of env kw m0)
               /\ (0 < Kw.lora_rank kw)%Z)
           \/ (Kw.init_value_head kw = true
               /\ ev ∈ trace (initialize_value_head env dschf cfg (value_head m0))))).
Proof.
  unfold load_and_adapt. intros H.
  apply elem_of_trace_bind_inv in H as [H | (dschf & Hz & H)]; [trace_inv|].
  exists dschf. split; [exact Hz|].
  apply elem_of_trace_bind_inv in H as [H | (? & _ & H)].
  { left. destruct dschf; trace_inv. auto. }
  apply elem_of_trace_bind_inv in H as [H | (m0 & Hm0 & H)].
  { right. left. apply from_pretrained_trace in H. exact H. }
  right. right. exists m0. split; [exact Hm0|].
  apply elem_of_trace_bind_inv in H as [H | (? & _ & H)].
  { left. destruct (output_router_logits cfg) eqn:Ho; trace_inv. eauto. }
  apply elem_of_trace_bind_inv in H as [H | (? & _ & H)].
  { right. left. destruct (Z.ltb_spec 0 (Kw.lora_rank kw)); trace_inv. auto. }
  apply elem_of_trace_bind_inv in H as [H | (? & _ & H)]; [|trace_inv].
  right. right. destruct (Kw.init_value_head kw); [auto|trace_inv].
Qed.

Lemma load_and_adapt_ok (env : Env) (path : string) (kw : Kw.t)
    (cfg : AutoConfig) (cls : cls_class) (model : Model) :
  outcome (load_and_adapt env path kw cfg cls) = Ok model ->
  exists dschf m0 w,
    zero3 (Kw.ds_config kw) = Ok dschf /\
    outcome (from_pretrained env cls path cfg) = Ok m0 /\
    outcome (if Kw.init_value_head kw
             then initialize_value_head env dschf cfg (value_head m0)
             else mret (value_head m0)) = Ok w /\
    model = {| module := set_value_head w m0;
               model_class := cls;
               config := match output_router_logits cfg with
                         | Some _ => set_output_router_logits cfg
                         | None => cfg
                         end;
               peft := if (0 <? Kw.lora_rank kw)%Z
                       then Some (lora_config_of env kw m0) else None |}.
Proof.
  unfold load_and_adapt. intros H.
  apply outcome_bind_inv in H as (dschf & Hz & H).
  apply outcome_bind_inv in H as ([] & _ & H).
  apply outcome_bind_inv in H as (m0 & Hm0 & H).
  apply outcome_bind_inv in H as (mc & Hmc & H).
  apply outcome_bind_inv in H as (lora & Hl & H).
  apply outcome_bind_inv in H as (w & Hw & H).
  cbn in H. injection H as <-.
  exists dschf, m0, w. repeat split; try assumption.
  f_equal.
  - destruct (output_router_logits cfg); cbn in Hmc; injection Hmc as <-; reflexivity.
  - destruct (0 <? Kw.lora_rank kw)%Z; cbn in Hl; injection Hl as <-; reflexivity.
Qed.

Lemma run_trace (env : Env) (path model_type : string) (kw : Kw.t) (ev : event) :
  ev ∈ trace (get_llm_for_sequence_regression env path model_type kw) ->
  ev = EvAutoConfigFromPretrained path
  \/ exists c0,
       AutoConfig_from_pretrained env path = Ok c0 /\
       (ev ∈ trace (resolve_class env path model_type
                      (configure (Kw.normalize_reward kw)
                         (Kw.use_flash_attention_2 kw) c0))
        \/ exists cls,
             outcome (resolve_class env path model_type
                        (configure (Kw.normalize_reward kw)
                           (Kw.use_flash_attention_2 kw) c0)) = Ok cls /\
             ev ∈ trace (load_and_adapt env path kw
                           (configure (Kw.normalize_reward kw)
                              (Kw.use_flash_attention_2 kw) c0) cls)).
Proof.
  unfold get_llm_for_sequence_regression. intros H.
  apply elem_of_trace_bind_inv in H as [H | (? & _ & H)]; [trace_inv|].
  apply elem_of_trace_bind_inv in H as [H | (? & _ & H)]; [trace_inv; auto|].
  apply elem_of_trace_bind_inv in H as [H | (c0 & Hc0 & H)]; [trace_inv|].
  right. exists c0. split; [exact Hc0|]. cbn zeta in H.
  apply elem_of_trace_bind_inv in H as [H | (cls & Hcls & H)]; eauto.
Qed.

Lemma run_ok (env : Env) (path model_type : string) (kw : Kw.t) (model : Model) :
  outcome (get_llm_for_sequence_regression env path model_type kw) = Ok model ->
  String.eqb model_type "critic" || String.eqb model_type "reward" = true /\
  exists c0 cls,
    AutoConfig_from_pretrained env path = Ok c0 /\
    outcome (resolve_class env path model_type
               (configure (Kw.normalize_reward kw)
                  (Kw.use_flash_attention_2 kw) c0)) = Ok cls /\
    outcome (load_and_adapt env path kw
               (configure (Kw.normalize_reward kw)
                  (Kw.use_flash_attention_2 kw) c0) cls) = Ok model.
Proof.
  unfold get_llm_for_sequence_regression. intros H.
  apply outcome_bind_inv in H as ([] & Hmt & H).
  apply outcome_bind_inv in H as ([] & _ & H).
  apply outcome_bind_inv in H as (c0 & Hc0 & H). cbn zeta in H.
  apply outcome_bind_inv in H as (cls & Hcls & H).
  split.
  - destruct (String.eqb model_type "critic" || String.eqb model_type "reward");
      [reflexivity|discriminate].
  - exists c0, cls. auto.
Qed.

(** ** What the returned model holds *)

Lemma init_common_ok (super_init : AutoConfig -> result unit)
    (base_llm_model : AutoConfig -> result Backbone)
    (Linear : Z -> result (list Q)) (default_dtype : Torch.dtype)
    (c : AutoConfig) (self : LLMForSequenceRegression) :
  init_common super_init base_llm_model Linear default_dtype c = Ok self ->
  cfg_normalize_reward c = Some (normalize_reward self) /\
  match cfg_mean c with
  | Some v =>
      exists m s,
        v = PyNumber m /\ cfg_std c = Some (PyNumber s) /\
        mean self = Torch.to_dtype default_dtype m /\
        std self = Torch.to_dtype default_dtype s
  | None => mean self = 0%Q /\ std self = 1%Q
  end.
Proof.
  unfold init_common.
  destruct (super_init c) as [[]|]; [|discriminate]. cbn.
  destruct (base_llm_model c) as [bb|]; [|discriminate]. cbn.
  destruct (Linear (hidden_size c)) as [w0|]; [|discriminate]. cbn.
  destruct (cfg_normalize_reward c) as [nr|]; [|discriminate]. cbn.
  destruct (cfg_mean c) as [[m|r]|]; cbn; [|discriminate|].
  - destruct (cfg_std c) as [[s|r]|]; cbn; try discriminate.
    intros H. injection H as <-. cbn. split; [reflexivity|].
    exists m, s. auto.
  - intros H. injection H as <-. cbn. auto.
Qed.

(** X8.  The model the function returns normalizes exactly when the
    [normalize_reward] argument says so, whatever the checkpoint's
    configuration held; its [mean] and [std] are the checkpoint's, rounded
    to the dtype of the buffers, when the checkpoint has a [mean], and 0
    and 1 otherwise. *)
Theorem returned_model_normalization
    (env : Env) (model_name_or_path model_type : string) (kw : Kw.t)
    (model : Model) (c0 : AutoConfig) :
  outcome (get_llm_for_sequence_regression env model_name_or_path model_type kw)
    = Ok model ->
  AutoConfig_from_pretrained env model_name_or_path = Ok c0 ->
  normalize_reward (module model) = Kw.normalize_reward kw /\
  match cfg_mean c0 with
  | Some v =>
      exists m s,
        v = PyNumber m /\ cfg_std c0 = Some (PyNumber s) /\
        mean (module model) = Torch.to_dtype (buffer_dtype env) m /\
        std (module model) = Torch.to_dtype (buffer_dtype env) s
  | None => mean (module model) = 0%Q /\ std (module model) = 1%Q
  end.
Proof.
  intros Hok Hc0.
  apply run_ok in Hok as (_ & c & cls & Hc & _ & Hload).
  rewrite Hc0 in Hc. injection Hc as <-.
  apply load_and_adapt_ok in Hload as (dschf & m0 & w & _ & Hm0 & _ & ->).
  apply from_pretrained_ok in Hm0 as (self & bb' & w' & Hinit & _ & ->).
  apply init_common_ok in Hinit as [Hnr Hstats]. cbn in Hnr, Hstats |- *.
  injection Hnr as <-. split; [reflexivity|exact Hstats].
Qed.

Lemma returned_model_normalization_witness :
  exists model,
    outcome (get_llm_for_sequence_regression (sample_stats_env (Some tenth) (Some 3%Q))
               "ckpt" "reward" (sample_kw_full 0 None None false)) = Ok model /\
    normalize_reward (module model) = true /\
    mean (module model) = (13421773 # 134217728) /\
    std (module model) = 3%Q.
Proof.
  eexists. split; [vm_compute; reflexivity|].
  destruct (returned_model_normalization (sample_stats_env (Some tenth) (Some 3%Q))
              "ckpt" "reward" (sample_kw_full 0 None None false) _ _
              ltac:(vm_compute; reflexivity) eq_refl)
    as (Hnr & m & s & Hm & Hs & Hmean & Hstd).
  cbn in Hm, Hs. injection Hm as <-. injection Hs as <-.
  split; [exact Hnr|]. split; [exact Hmean|exact Hstd].
Defined.

(** X9.  The configuration of the returned model is the checkpoint's, with
    [normalize_reward] and the attention implementation overwritten from
    the arguments, and [output_router_logits] forced to [True] when the
    checkpoint's configuration has that option. *)
Theorem returned_model_config
    (env : Env) (model_name_or_path model_type : string) (kw : Kw.t)
    (model : Model) (c0 : AutoConfig) :
  outcome (get_llm_for_sequence_regression env model_name_or_path model_type kw)
    = Ok model ->
  AutoConfig_from_pretrained env model_name_or_path = Ok c0 ->
  config model
  = {| config_class := config_class c0;
       hidden_size := hidden_size c0;
       cfg_normalize_reward := Some (Kw.normalize_reward kw);
       cfg_mean := cfg_mean c0;
       cfg_std := cfg_std c0;
       _attn_implementation :=
         Some (if Kw.use_flash_attention_2 kw then "flash_attention_2" else "eager")%string;
       auto_map := auto_map c0;
       output_router_logits :=
         match output_router_logits c0 with
         | Some _ => Some true
         | None => None
         end |}.
Proof.
  intros Hok Hc0.
  apply run_ok in Hok as (_ & c & cls & Hc & _ & Hload).
  rewrite Hc0 in Hc. injection Hc as <-.
  apply load_and_adapt_ok in Hload as (dschf & m0 & w & _ & _ & _ & ->).
  unfold configure, set_output_router_logits. cbn.
  destruct (output_router_logits c0); reflexivity.
Qed.

Lemma returned_model_config_witness :
  exists model,
    outcome (get_llm_for_sequence_regression (sample_stats_env None None)
               "ckpt" "critic" (sample_kw_full 0 None None false)) = Ok model /\
    _attn_implementation (config model) = Some "flash_attention_2"%string /\
    output_router_logits (config model) = Some true.
Proof.
  eexists. split; [vm_compute; reflexivity|].
  rewrite (returned_model_config (sample_stats_env None None)
             "ckpt" "critic" (sample_kw_full 0 None None false) _ _
             ltac:(vm_compute; reflexivity) eq_refl).
  split; reflexivity.
Defined.

(** X10.  The class of the returned model is the reward class for
    [model_type = "reward"] and the critic class for ["critic"], on the
    registry path and on the fallback path alike. *)
Theorem returned_model_class_matches_model_type
    (env : Env) (model_name_or_path model_type : string) (kw : Kw.t) (model : Model) :
  outcome (get_llm_for_sequence_regression env model_name_or_path model_type kw)
    = Ok model ->
  match model_class model with
  | RewardClass _ _ => model_type = "reward"%string
  | CriticClass _ _ => model_type = "critic"%string
  end.
Proof.
  intros Hok.
  apply run_ok in Hok as (Hmt & c & cls & _ & Hcls & Hload).
  apply load_and_adapt_ok in Hload as (dschf & m0 & w & _ & _ & _ & ->).
  apply resolve_class_ok in Hcls as (p & b & Hmk).
  apply make_class_ok in Hmk. subst cls. cbn.
  destruct (String.eqb_spec model_type "reward") as [Hr|Hr]; [exact Hr|].
  destruct (String.eqb_spec model_type "critic") as [Hc|Hc]; [exact Hc|].
  discriminate.
Qed.

Lemma returned_model_class_matches_model_type_witness :
  exists model,
    outcome (get_llm_for_sequence_regression
               (sample_env 3 (Some baichuan_auto_map) false)
               "ckpt" "critic" (sample_kw false)) = Ok model /\
    match model_class model with
    | RewardClass _ _ => "critic"%string = "reward"%string
    | CriticClass _ _ => "critic"%string = "critic"%string
    end.
Proof.
  eexists. split; [vm_compute; reflexivity|].
  lazymatch goal with
  | |- match model_class ?m with _ => _ end =>
      exact (returned_model_class_matches_model_type
               (sample_env 3 (Some baichuan_auto_map) false)
               "ckpt" "critic" (sample_kw false) m ltac:(vm_compute; reflexivity))
  end.
Defined.

(** ** From a step's trace to the trace of the call *)

Lemma run_trace_valid (env : Env) (path model_type : string) (kw : Kw.t) (ev : event) :
  ev ∈ trace (get_llm_for_sequence_regression env path model_type kw) ->
  String.eqb model_type "critic" || String.eqb model_type "reward" = true.
Proof.
  unfold get_llm_for_sequence_regression.
  destruct (String.eqb model_type "critic" || String.eqb model_type "reward");
    [reflexivity|].
  intros H. apply elem_of_nil in H. destruct H.
Qed.

Lemma run_trace_eq (env : Env) (path model_type : string) (kw : Kw.t)
    (c0 : AutoConfig) (cls : cls_class) :
  String.eqb model_type "critic" || String.eqb model_type "reward" = true ->
  AutoConfig_from_pretrained env path = Ok c0 ->
  outcome (resolve_class env path model_type
             (configure (Kw.normalize_reward kw) (Kw.use_flash_attention_2 kw) c0))
    = Ok cls ->
  trace (get_llm_for_sequence_regression env path model_type kw)
  = EvAutoConfigFromPretrained path
    :: trace (resolve_class env path model_type
                (configure (Kw.normalize_reward kw) (Kw.use_flash_attention_2 kw) c0))
    ++ trace (load_and_adapt env path kw
                (configure (Kw.normalize_reward kw) (Kw.use_flash_attention_2 kw) c0)
                cls).
Proof.
  intros Hmt Hc0 Hcls. unfold get_llm_for_sequence_regression. rewrite Hmt, Hc0.
  rewrite (bind_ok (lift (Ok tt)) _ tt eq_refl). cbn beta.
  rewrite (bind_ok (tell _) _ tt eq_refl). cbn beta.
  rewrite (bind_ok (lift (Ok c0)) _ c0 eq_refl). cbn beta zeta.
  rewrite (bind_ok _ _ cls Hcls). reflexivity.
Qed.

Lemma trace_bind_prefix {A B} (m : M A) (f : A -> M B) :
  exists rest, trace (m ≫= f) = trace m ++ rest.
Proof.
  destruct (outcome m) as [a|e] eqn:Hm.
  - rewrite (bind_ok m f a Hm). cbn. eauto.
  - rewrite (bind_raise m f e Hm). cbn. exists []. rewrite app_nil_r. reflexivity.
Qed.

Lemma from_pretrained_trace_head (env : Env) (cls : cls_class) (path : string)
    (cfg : AutoConfig) :
  exists rest, trace (from_pretrained env cls path cfg) = EvFromPretrained cls path :: rest.
Proof.
  unfold from_pretrained.
  match goal with
  | |- context [ tell ?ev ≫= ?f ] =>
      destruct (trace_bind_prefix (tell ev) f) as [rest Hrest]
  end.
  exists rest. exact Hrest.
Qed.

Lemma load_and_adapt_trace_eq (env : Env) (path : string) (kw : Kw.t)
    (cfg : AutoConfig) (cls : cls_class) (dschf : bool) :
  zero3 (Kw.ds_config kw) = Ok dschf ->
  exists rest,
    trace (load_and_adapt env path kw cfg cls)
    = (if dschf then [EvHfDeepSpeedConfig] else [])
      ++ EvFromPretrained cls path :: rest.
Proof.
  intros Hz. unfold load_and_adapt. rewrite Hz.
  rewrite (bind_ok (lift (Ok dschf)) _ dschf eq_refl). cbn beta.
  rewrite (bind_ok (if dschf then tell EvHfDeepSpeedConfig else mret tt) _ tt)
    by (destruct dschf; reflexivity).
  cbn beta. cbn [trace lift app].
  match goal with
  | |- context [ trace (from_pretrained env cls path cfg ≫= ?g) ] =>
      destruct (trace_bind_prefix (from_pretrained env cls path cfg) g) as [rest1 ->]
  end.
  destruct (from_pretrained_trace_head env cls path cfg) as [rest2 ->].
  exists (rest2 ++ rest1). destruct dschf; reflexivity.
Qed.

Lemma load_and_adapt_init_trace (env : Env) (path : string) (kw : Kw.t)
    (cfg : AutoConfig) (cls : cls_class) (dschf : bool)
    (m0 : LLMForSequenceRegression) (ev : event) :
  zero3 (Kw.ds_config kw) = Ok dschf ->
  outcome (from_pretrained env cls path cfg) = Ok m0 ->
  Kw.init_value_head kw = true ->
  ev ∈ trace (initialize_value_head env dschf cfg (value_head m0)) ->
  ev ∈ trace (load_and_adapt env path kw cfg cls).
Proof.
  intros Hz Hm0 Hinit Hev. unfold load_and_adapt. rewrite Hinit.
  apply elem_of_trace_bind_r with (a := dschf); [exact Hz|].
  apply elem_of_trace_bind_r with (a := tt); [destruct dschf; reflexivity|].
  apply elem_of_trace_bind_r with (a := m0); [exact Hm0|].
  match goal with
  | |- _ ∈ trace (?m ≫= _) =>
      destruct (outcome m) as [mc|e] eqn:Hmc;
      [apply elem_of_trace_bind_r with (a := mc); [exact Hmc|]
      |destruct (output_router_logits cfg); discriminate]
  end.
  match goal with
  | |- _ ∈ trace (?m ≫= _) =>
      destruct (outcome m) as [lora|e] eqn:Hl;
      [apply elem_of_trace_bind_r with (a := lora); [exact Hl|]
      |destruct (0 <? Kw.lora_rank kw)%Z; discriminate]
  end.
  apply elem_of_trace_bind_l. exact Hev.
Qed.

Lemma zero3_true (ds : option (gmap string (gmap string Z))) :
  zero3 ds = Ok true ->
  exists d z,
    ds = Some d /\ d !! "zero_optimization"%string = Some z /\
    z !! "stage"%string = Some 3%Z.
Proof.
  unfold zero3, dict_get. destruct ds as [d|]; [|discriminate].
  destruct (d !! "zero_optimization"%string) as [z|] eqn:Hd; [|discriminate]. cbn.
  destruct (z !! "stage"%string) as [stage|] eqn:Hs; [|discriminate]. cbn.
  intros H. injection H as H. apply Z.eqb_eq in H. subst stage.
  exists d, z. auto.
Qed.

(** ** Initialization of the value head: when nothing is drawn *)

(** X12.  Without [init_value_head] the function draws nothing and gathers
    nothing, and the module it returns is the one [from_pretrained]
    loaded. *)
Theorem no_initialization_without_flag
    (env : Env) (model_name_or_path model_type : string) (kw : Kw.t) :
  Kw.init_value_head kw = false ->
  let run := get_llm_for_sequence_regression env model_name_or_path model_type kw in
  (forall m s, EvNormal m s ∉ trace run)
  /\ (forall rank, EvGatheredParameters rank ∉ trace run)
  /\ (forall model,
        outcome run = Ok model ->
        exists c0,
          AutoConfig_from_pretrained env model_name_or_path = Ok c0 /\
          outcome (from_pretrained env (model_class model) model_name_or_path
                     (configure (Kw.normalize_reward kw)
                        (Kw.use_flash_attention_2 kw) c0))
            = Ok (module model)).
Proof.
  intros Hinit run. subst run.
  assert (Hnone : forall ev,
    ev ∈ trace (get_llm_for_sequence_regression env model_name_or_path model_type kw) ->
    (forall m s, ev ≠ EvNormal m s) /\ (forall rank, ev ≠ EvGatheredParameters rank)).
  { intros ev H.
    apply run_trace in H as [-> | (c0 & Hc0 & [H | (cls & Hcls & H)])];
      [split; discriminate| |].
    { apply resolve_class_trace in H as [[-> | [[msg ->] | [cr ->]]] _];
        split; discriminate. }
    apply load_and_adapt_trace in H
      as (dschf & _ & [[-> _] | [-> | (m0 & _ & [[-> _] | [[-> _] | [Hi _]]])]]);
      try (split; discriminate).
    rewrite Hinit in Hi. discriminate. }
  split; [|split].
  - intros m s H. apply Hnone in H as [H _]. exact (H m s eq_refl).
  - intros rank H. apply Hnone in H as [_ H]. exact (H rank eq_refl).
  - intros model Hok.
    apply run_ok in Hok as (_ & c0 & cls & Hc0 & _ & Hload).
    apply load_and_adapt_ok in Hload as (dschf & m0 & w & _ & Hm0 & Hw & ->).
    rewrite Hinit in Hw. cbn in Hw. injection Hw as <-.
    exists c0. split; [exact Hc0|]. cbn [module model_class]. rewrite Hm0.
    destruct m0; reflexivity.
Qed.

Lemma no_initialization_without_flag_witness :
  EvNormal 0 (1 # 4)
    ∉ trace (get_llm_for_sequence_regression (sample_stats_env None None)
               "ckpt" "reward" (sample_kw_full 0 None (Some zero3_config) false)).
Proof.
  exact (proj1 (no_initialization_without_flag (sample_stats_env None None)
                  "ckpt" "reward" (sample_kw_full 0 None (Some zero3_config) false)
                  eq_refl) 0%Q (1 # 4)).
Defined.

(** X13.  Under ZeRO-3 a process whose rank is not 0 draws nothing; with
    [init_value_head] set it still enters [GatheredParameters], and the
    weight of the returned value head is the one that context leaves
    it. *)
Theorem zero3_only_rank_zero_draws
    (env : Env) (model_name_or_path model_type : string) (kw : Kw.t) :
  zero3 (Kw.ds_config kw) = Ok true ->
  get_rank env ≠ 0%Z ->
  let run := get_llm_for_sequence_regression env model_name_or_path model_type kw in
  (forall m s, EvNormal m s ∉ trace run)
  /\ (forall model,
        outcome run = Ok model ->
        Kw.init_value_head kw = true ->
        EvGatheredParameters 0 ∈ trace run /\
        exists c0 loaded,
          AutoConfig_from_pretrained env model_name_or_path = Ok c0 /\
          outcome (from_pretrained env (model_class model) model_name_or_path
                     (configure (Kw.normalize_reward kw)
                        (Kw.use_flash_attention_2 kw) c0)) = Ok loaded /\
          value_head (module model) = gathered_exit env (value_head loaded)).
Proof.
  intros Hz Hrank run. subst run. split.
  - intros m s H.
    apply run_trace in H as [H | (c0 & Hc0 & [H | (cls & Hcls & H)])]; [discriminate| |].
    { apply resolve_class_trace in H as [[H | [[msg H] | [cr H]]] _]; discriminate. }
    apply load_and_adapt_trace in H
      as (dschf & Hz' & [[H _] | [H | (m0 & _ & [[H _] | [[H _] | [_ H]]])]]);
      try discriminate.
    rewrite Hz in Hz'. injection Hz' as <-.
    apply initialize_value_head_trace in H as [[_ [H|H]] | [[H|H] _]];
      try discriminate. contradiction.
  - intros model Hok Hinit.
    apply run_ok in Hok as (Hmt & c0 & cls & Hc0 & Hcls & Hload).
    pose proof Hload as Hload'.
    apply load_and_adapt_ok in Hload as (dschf & m0 & w & Hz' & Hm0 & Hw & ->).
    rewrite Hz in Hz'. injection Hz' as <-.
    split.
    + rewrite (run_trace_eq _ _ _ _ _ _ Hmt Hc0 Hcls).
      apply elem_of_cons. right. apply elem_of_app. right.
      apply (load_and_adapt_init_trace _ _ _ _ _ true m0); try assumption.
      unfold initialize_value_head.
      apply elem_of_trace_bind_r with (a := tt); [reflexivity|].
      apply elem_of_trace_bind_l. apply list_elem_of_singleton. reflexivity.
    + exists c0, m0. split; [exact Hc0|]. split; [exact Hm0|]. cbn.
      rewrite Hinit in Hw. unfold initialize_value_head in Hw.
      apply Z.eqb_neq in Hrank. rewrite Hrank in Hw. cbn in Hw.
      injection Hw as <-. reflexivity.
Qed.

Lemma zero3_only_rank_zero_draws_witness :
  EvNormal 0 (1 # 4)
    ∉ trace (get_llm_for_sequence_regression (sample_stats_env None None)
               "ckpt" "reward" (sample_kw_full 0 None (Some zero3_config) true)).
Proof.
  refine (proj1 (zero3_only_rank_zero_draws (sample_stats_env None None)
                   "ckpt" "reward" (sample_kw_full 0 None (Some zero3_config) true)
                   _ _) 0%Q (1 # 4)).
  - vm_compute. reflexivity.
  - discriminate.
Defined.

(** ** When the weights are loaded *)

Lemma weights_loaded_after_resolution
    (env : Env) (model_name_or_path model_type : string) (kw : Kw.t)
    (cls : cls_class) (path : string) :
  EvFromPretrained cls path
    ∈ trace (get_llm_for_sequence_regression env model_name_or_path model_type kw) ->
  path = model_name_or_path /\
  String.eqb model_type "critic" || String.eqb model_type "reward" = true /\
  exists dschf,
    zero3 (Kw.ds_config kw) = Ok dschf /\
    exists c0,
      AutoConfig_from_pretrained env model_name_or_path = Ok c0 /\
      outcome (resolve_class env model_name_or_path model_type
                 (configure (Kw.normalize_reward kw) (Kw.use_flash_attention_2 kw) c0))
        = Ok cls.
Proof.
  intros H. pose proof (run_trace_valid _ _ _ _ _ H) as Hmt.
  apply run_trace in H as [H | (c0 & Hc0 & [H | (cls' & Hcls & H)])]; [discriminate| |].
  { apply resolve_class_trace in H as [[H | [[msg H] | [cr H]]] _]; discriminate. }
  apply load_and_adapt_trace in H
    as (dschf & Hz & [[H _] | [H | (m0 & _ & [[H _] | [[H _] | [_ H]]])]]);
    try discriminate.
  - injection H as -> ->. repeat split; eauto.
  - apply initialize_value_head_trace in H as [[_ [H|H]] | [_ H]]; discriminate.
Qed.



(** ** The two ways to the class *)

(** X16.  When the registry knows the configuration's class and the class
    statement succeeds, the fallback never runs: nothing is printed about a
    failure, no class is taken from the checkpoint's modelling file, and
    the returned model's class is built on the registry's class and its
    [__base__]. *)
Theorem registry_success_skips_fallback
    (env : Env) (model_name_or_path model_type : string) (kw : Kw.t)
    (c0 : AutoConfig) (base_class : pyclass) :
  AutoConfig_from_pretrained env model_name_or_path = Ok c0 ->
  AutoModel_model_mapping env (config_class c0) = Ok base_class ->
  class_statement env (class_base env base_class) = Ok tt ->
  let run := get_llm_for_sequence_regression env model_name_or_path model_type kw in
  (EvPrint "Failed to load from AutoModel, construct from modelling file." ∉ trace run)
  /\ (forall class_reference path,
        EvGetClassFromDynamicModule class_reference path ∉ trace run)
  /\ (forall model,
        outcome run = Ok model ->
        model_class model
        = if String.eqb model_type "reward"
          then RewardClass (class_base env base_class) base_class
          else CriticClass (class_base env base_class) base_class).
Proof.
  intros Hc0 Hmap Hstmt run. subst run.
  assert (Hreg : from_registry env model_type
                   (configure (Kw.normalize_reward kw) (Kw.use_flash_attention_2 kw) c0)
                 = Ok (if String.eqb model_type "reward"
                       then RewardClass (class_base env base_class) base_class
                       else CriticClass (class_base env base_class) base_class)).
  { unfold from_registry. cbn [config_class configure]. rewrite Hmap. cbn.
    unfold make_class, _get_reward_model, _get_critic_model.
    destruct (String.eqb model_type "reward"); rewrite Hstmt; reflexivity. }
  assert (Hnone : forall ev,
    ev ∈ trace (get_llm_for_sequence_regression env model_name_or_path model_type kw) ->
    ev ≠ EvPrint "Failed to load from AutoModel, construct from modelling file."
    /\ forall class_reference path,
         ev ≠ EvGetClassFromDynamicModule class_reference path).
  { intros ev H.
    apply run_trace in H as [-> | (c & Hc & [H | (cls & Hcls & H)])];
      [split; discriminate| |]; rewrite Hc0 in Hc; injection Hc as <-.
    { apply resolve_class_trace in H as [_ [e He]]. congruence. }
    apply load_and_adapt_trace in H
      as (dschf & _ & [[-> _] | [-> | (m0 & _ & [[-> _] | [[-> _] | [_ H]]])]]);
      try (split; discriminate).
    apply initialize_value_head_trace in H as [[_ [->| ->]] | [_ ->]];
      split; discriminate. }
  split; [|split].
  - intros H. apply Hnone in H as [H _]. congruence.
  - intros cr path H. apply Hnone in H as [_ H]. exact (H cr path eq_refl).
  - intros model Hok.
    apply run_ok in Hok as (_ & c & cls & Hc & Hcls & Hload).
    rewrite Hc0 in Hc. injection Hc as <-.
    apply load_and_adapt_ok in Hload as (dschf & m0 & w & _ & _ & _ & ->). cbn.
    unfold resolve_class, try_except in Hcls. rewrite Hreg in Hcls.
    cbn in Hcls. injection Hcls as <-. reflexivity.
Qed.

Lemma registry_success_skips_fallback_witness :
  EvPrint "Failed to load from AutoModel, construct from modelling file."
    ∉ trace (get_llm_for_sequence_regression (sample_env 3 None true)
               "ckpt" "reward" (sample_kw true)).
Proof.
  exact (proj1 (registry_success_skips_fallback (sample_env 3 None true)
                  "ckpt" "reward" (sample_kw true) (sample_config 3 None)
                  "LlamaModel" eq_refl eq_refl eq_refl)).
Defined.

(** X17.  When the registry fails and the configuration has no [auto_map],
    or an [auto_map] without an ["AutoModelForCausalLM"] entry, the call
    ends with an [AttributeError], respectively a [KeyError], in place of
    the registry's error, after the configuration load and the diagnostic
    and before any class or weight is loaded. *)
Theorem fallback_needs_auto_map_entry
    (env : Env) (model_name_or_path model_type : string) (kw : Kw.t)
    (c0 : AutoConfig) (e : exn) :
  String.eqb model_type "critic" || String.eqb model_type "reward" = true ->
  AutoConfig_from_pretrained env model_name_or_path = Ok c0 ->
  from_registry env model_type
    (configure (Kw.normalize_reward kw) (Kw.use_flash_attention_2 kw) c0) = Raise e ->
  let run := get_llm_for_sequence_regression env model_name_or_path model_type kw in
  let stopped e' :=
    mkM [EvAutoConfigFromPretrained model_name_or_path;
         EvPrint "Failed to load from AutoModel, construct from modelling file."]
        (@Raise Model e') in
  (auto_map c0 = None -> run = stopped AttributeError)
  /\ (forall am,
        auto_map c0 = Some am -> am !! "AutoModelForCausalLM"%string = None ->
        run = stopped KeyError).
Proof.
  intros Hmt Hc0 Hreg run stopped.
  assert (Hstop : forall e',
    dynamic_names (configure (Kw.normalize_reward kw) (Kw.use_flash_attention_2 kw) c0)
      = Raise e' ->
    run = stopped e').
  { intros e' Hdyn. subst run stopped. unfold get_llm_for_sequence_regression.
    rewrite Hmt, Hc0.
    rewrite (bind_ok (lift (Ok tt)) _ tt eq_refl). cbn beta.
    rewrite (bind_ok (tell _) _ tt eq_refl). cbn beta.
    rewrite (bind_ok (lift (Ok c0)) _ c0 eq_refl). cbn beta zeta.
    unfold resolve_class.
    rewrite (try_except_raise _ _ e) by (try reflexivity; exact Hreg).
    unfold from_modelling_file. rewrite Hdyn. reflexivity. }
  split.
  - intros Ham. apply Hstop. unfold dynamic_names. cbn [auto_map configure].
    rewrite Ham. reflexivity.
  - intros am Ham Hkey. apply Hstop. unfold dynamic_names. cbn [auto_map configure].
    rewrite Ham. cbn. unfold dict_get. rewrite Hkey. reflexivity.
Qed.

Lemma fallback_needs_auto_map_entry_witness :
  get_llm_for_sequence_regression (sample_env 3 None false)
    "ckpt" "critic" (sample_kw false)
  = mkM [EvAutoConfigFromPretrained "ckpt";
         EvPrint "Failed to load from AutoModel, construct from modelling file."]
        (Raise AttributeError).
Proof.
  exact (proj1 (fallback_needs_auto_map_entry (sample_env 3 None false)
                  "ckpt" "critic" (sample_kw false) (sample_config 3 None) KeyError
                  eq_refl eq_refl eq_refl) eq_refl).
Defined.

(** ** The class names of the fallback *)

Lemma rev_app_rev_app (a cur t : string) :
  String.rev_app (String.rev_app a cur) t = String.rev_app cur (a +:+ t).
Proof.
  revert cur t. induction a as [|x a IH]; intros cur t; [reflexivity|].
  change (String.rev_app (String x a) cur) with (String.rev_app a (String x cur)).
  rewrite IH. reflexivity.
Qed.

Lemma app_empty_r (a : string) : a +:+ "" = a.
Proof.
  induction a as [|x a IH]; [reflexivity|].
  change (String x a +:+ "") with (String x (a +:+ "")). rewrite IH. reflexivity.
Qed.

Lemma rev_rev_app (a : string) : String.rev (String.rev_app a "") = a.
Proof.
  unfold String.rev. rewrite rev_app_rev_app. cbn. apply app_empty_r.
Qed.

Lemma prefix_empty (s : string) : String.prefix "" s = true.
Proof. destruct s; reflexivity. Qed.

Lemma prefix_app_self (s t : string) : String.prefix s (s +:+ t) = true.
Proof.
  induction s as [|x s IH]; [apply prefix_empty|].
  change (String x s +:+ t) with (String x (s +:+ t)). cbn.
  destruct (Ascii.ascii_dec x x); [exact IH|congruence].
Qed.

Lemma split_aux_first (c0 : Ascii.ascii) (sep' a b cur : string) :
  no_match_inside (String c0 sep') a (String c0 sep' +:+ b) ->
  Py.split_aux (String c0 sep') 0 cur (a +:+ String c0 sep' +:+ b)
  = String.rev (String.rev_app a cur)
    :: Py.split_aux (String c0 sep') (String.length sep') "" (sep' +:+ b).
Proof.
  revert cur. induction a as [|x a IH]; intros cur Hno.
  - change ("" +:+ String c0 sep' +:+ b) with (String c0 (sep' +:+ b)).
    cbn [Py.split_aux].
    change (String c0 (sep' +:+ b)) with (String c0 sep' +:+ b) at 1.
    rewrite prefix_app_self. cbn [String.length].
    rewrite Nat.sub_succ, Nat.sub_0_r. reflexivity.
  - destruct Hno as [Hx Hno].
    change (String x a +:+ String c0 sep' +:+ b)
      with (String x (a +:+ String c0 sep' +:+ b)).
    cbn [Py.split_aux]. rewrite Hx. apply IH, Hno.
Qed.

Lemma split_aux_last (sep a cur : string) :
  no_match_inside sep a "" ->
  Py.split_aux sep 0 cur a = [String.rev (String.rev_app a cur)].
Proof.
  revert cur. induction a as [|x a IH]; intros cur Hno; [reflexivity|].
  destruct Hno as [Hx Hno]. rewrite app_empty_r in Hx.
  cbn [Py.split_aux]. rewrite Hx. apply IH, Hno.
Qed.

Lemma no_match_inside_single (c : Ascii.ascii) (a t1 t2 : string) :
  no_match_inside (String c "") a t1 -> no_match_inside (String c "") a t2.
Proof.
  induction a as [|x a IH]; [trivial|]. intros [Hx Hno]. split; [|apply IH, Hno].
  cbn in Hx |- *. destruct (Ascii.ascii_dec c x); [|reflexivity].
  rewrite prefix_empty in Hx. discriminate.
Qed.

Lemma split_dot (a b : string) :
  no_match_inside "." a "" -> no_match_inside "." b "" ->
  Py.split "." (a +:+ "." +:+ b) = [a; b].
Proof.
  intros Ha Hb. unfold Py.split.
  rewrite split_aux_first by (eapply no_match_inside_single; exact Ha).
  cbn [String.length]. change ("" +:+ b) with b.
  rewrite split_aux_last by exact Hb.
  rewrite !rev_rev_app. reflexivity.
Qed.

Lemma split_stem (c0 : Ascii.ascii) (sep' stem rest : string) :
  no_match_inside (String c0 sep') stem (String c0 sep' +:+ rest) ->
  Py.getitem (Py.split (String c0 sep') (stem +:+ String c0 sep' +:+ rest)) 0 = Ok stem.
Proof.
  intros Hno. unfold Py.split. rewrite split_aux_first by exact Hno.
  rewrite rev_rev_app. reflexivity.
Qed.

Lemma split_whole (sep name : string) :
  no_match_inside sep name "" ->
  Py.getitem (Py.split sep name) 0 = Ok name.
Proof.
  intros Hno. unfold Py.split. rewrite split_aux_last by exact Hno.
  rewrite rev_rev_app. reflexivity.
Qed.

(** X18.  For a checkpoint whose causal-LM entry is [module.QWenLMHeadModel]
    or [module.InternLMForCausalLM] the fallback takes the two fixed class
    names of that architecture from [module], whether or not the
    [auto_map] has an ["AutoModel"] entry. *)
Theorem dynamic_names_special_cases
    (c : AutoConfig) (am : gmap string string) (module_file : string) :
  auto_map c = Some am ->
  no_match_inside "." module_file "" ->
  (am !! "AutoModelForCausalLM"%string = Some (module_file +:+ "." +:+ "QWenLMHeadModel") ->
   dynamic_names c = Ok (module_file, "QWenModel", "QWenPreTrainedModel")%string)
  /\ (am !! "AutoModelForCausalLM"%string
        = Some (module_file +:+ "." +:+ "InternLMForCausalLM") ->
      dynamic_names c = Ok (module_file, "InternLMModel", "InternLMPreTrainedModel")%string).
Proof.
  intros Ham Hmf. split; intros Hkey; unfold dynamic_names, dict_get;
    rewrite Ham; cbn; rewrite Hkey; cbn;
    (rewrite split_dot; [reflexivity|exact Hmf|cbn; tauto]).
Qed.

Lemma dynamic_names_special_cases_witness :
  dynamic_names (sample_config 3 (Some qwen_auto_map))
  = Ok ("modeling_qwen", "QWenModel", "QWenPreTrainedModel")%string.
Proof.
  refine (proj1 (dynamic_names_special_cases (sample_config 3 (Some qwen_auto_map))
                   qwen_auto_map "modeling_qwen" eq_refl _) _).
  - cbn. tauto.
  - vm_compute. reflexivity.
Defined.

(** X19.  For any other causal-LM entry [module.name], the pretrained
    class is [stem + "PreTrainedModel"] taken from [module], where [stem]
    is [name] up to its first ["For"], or the whole [name] when it has no
    ["For"].  The base class is [stem + "Model"] when the [auto_map] has no
    ["AutoModel"] entry; otherwise it is the class named by that entry,
    taken from [module] and not from the module the entry names. *)
Theorem dynamic_names_by_convention_rule
    (c : AutoConfig) (am : gmap string string) (module_file name stem : string) :
  auto_map c = Some am ->
  am !! "AutoModelForCausalLM"%string = Some (module_file +:+ "." +:+ name) ->
  no_match_inside "." module_file "" ->
  no_match_inside "." name "" ->
  name ≠ "QWenLMHeadModel"%string ->
  name ≠ "InternLMForCausalLM"%string ->
  (exists rest, name = stem +:+ "For" +:+ rest
                /\ no_match_inside "For" stem ("For" +:+ rest))
  \/ (name = stem /\ no_match_inside "For" name "") ->
  (am !! "AutoModel"%string = None ->
   dynamic_names c = Ok (module_file, stem +:+ "Model", stem +:+ "PreTrainedModel"))
  /\ (forall other_module base_name,
        am !! "AutoModel"%string = Some (other_module +:+ "." +:+ base_name) ->
        no_match_inside "." other_module "" ->
        no_match_inside "." base_name "" ->
        dynamic_names c = Ok (module_file, base_name, stem +:+ "PreTrainedModel")).
Proof.
  intros Ham Hkey Hmf Hname Hq Hi Hstem.
  assert (Hsplit : Py.getitem (Py.split "For" name) 0 = Ok stem).
  { destruct Hstem as [(rest & -> & Hno) | [-> Hno]].
    - apply split_stem, Hno.
    - apply split_whole, Hno. }
  apply String.eqb_neq in Hq, Hi. cbn in Hsplit.
  split.
  - intros Hauto. unfold dynamic_names, dict_get. rewrite Ham. cbn. rewrite Hkey. cbn.
    rewrite split_dot by assumption. rewrite Hq, Hi, Hauto. cbn.
    rewrite Hsplit. cbn. reflexivity.
  - intros other base_name Hauto Hother Hbase.
    unfold dynamic_names, dict_get. rewrite Ham. cbn. rewrite Hkey. cbn.
    rewrite split_dot by assumption. rewrite Hq, Hi, Hauto. cbn.
    rewrite split_dot by assumption. cbn.
    rewrite Hsplit. cbn. reflexivity.
Qed.

Lemma dynamic_names_by_convention_rule_witness :
  dynamic_names (sample_config 3 (Some baichuan_auto_map))
  = Ok ("modeling_baichuan", "Baichuan" +:+ "Model", "Baichuan" +:+ "PreTrainedModel").
Proof.
  refine (proj1 (dynamic_names_by_convention_rule
                   (sample_config 3 (Some baichuan_auto_map)) baichuan_auto_map
                   "modeling_baichuan" "BaichuanForCausalLM" "Baichuan"
                   eq_refl _ _ _ _ _ _) _).
  - vm_compute. reflexivity.
  - cbn. tauto.
  - cbn. tauto.
  - discriminate.
  - discriminate.
  - left. exists "CausalLM"%string. split; [reflexivity|]. cbn. tauto.
  - vm_compute. reflexivity.
Defined.

(** * Normalization, stated on the values *)

(** C4.  With [normalize_reward] set, the reward model in evaluation mode
    selects for each row the projection at the highest index whose mask
    entry is 1 and returns the affine map [(x - mean) / std] of it, where
    without the flag it returns the selected reward itself; with
    [mean = 0] and [std = 1] the rewards returned equal the selected ones;
    in training mode, flag set, it returns the projection at the last
    position as it is. *)
Theorem reward_normalization_eval_only
    (bb : Backbone) (w : list Q) (mu sigma : Q) (input_ids am : list (list Z))
    (return_output : bool) (outs_eval outs_train : Outputs) (L : nat) :
  bb false input_ids (Some am) = Ok outs_eval ->
  bb true input_ids (Some am) = Ok outs_train ->
  hidden_ok w (last_hidden_state outs_eval) ->
  hidden_ok w (last_hidden_state outs_train) ->
  Forall2 (fun mk hk => length mk = L /\ length hk = L /\ mask_row_ok mk)
    am (last_hidden_state outs_eval) ->
  Forall (fun row => length row = L) (last_hidden_state outs_train) ->
  (0 < L)%nat ->
  (exists selected,
     Forall3 (selects_last_one w) am (last_hidden_state outs_eval) selected
     /\ RewardModel.forward (instance bb w mu sigma false false)
          input_ids (Some am) return_output
        = Ok (reward_returned return_output selected outs_eval)
     /\ RewardModel.forward (instance bb w mu sigma true false)
          input_ids (Some am) return_output
        = Ok (reward_returned return_output
                (fmap (M:=list) (fun x => (x - mu) / sigma)%Q selected) outs_eval)
     /\ exists unchanged,
          RewardModel.forward (instance bb w 0 1 true false)
            input_ids (Some am) return_output
          = Ok (reward_returned return_output unchanged outs_eval)
          /\ Forall2 Qeq unchanged selected)
  /\ (exists reward,
        Forall2 (selects_position w (L - 1)) (last_hidden_state outs_train) reward
        /\ RewardModel.forward (instance bb w mu sigma true true)
             input_ids (Some am) return_output
           = Ok (reward_returned return_output reward outs_train)).
Proof.
  intros Heval Htrain Hhe Hht Hrows Hlen HL. split.
  - destruct (eval_select_rows w L _ _ Hrows) as (a & selected & Harg & Hg & Hsel).
    assert (Hmk : Forall (fun mk => length mk = L) am).
    { eapply Forall2_lengths_l; [|exact Hrows]. intros x y [Hx _]. exact Hx. }
    exists selected. split; [exact Hsel|]. split; [|split].
    + exact (reward_eval_assemble (instance bb w mu sigma false false) input_ids am
               return_output outs_eval L a selected eq_refl Heval Hhe Hmk Harg Hg).
    + exact (reward_eval_assemble (instance bb w mu sigma true false) input_ids am
               return_output outs_eval L a selected eq_refl Heval Hhe Hmk Harg Hg).
    + exists (fmap (M:=list) (fun x => (x - 0) / 1)%Q selected). split.
      * exact (reward_eval_assemble (instance bb w 0 1 true false) input_ids am
                 return_output outs_eval L a selected eq_refl Heval Hhe Hmk Harg Hg).
      * apply affine_identity.
  - destruct (last_position_rows w L _ HL Hlen) as (reward & Hm & Hrew).
    exists reward. split; [exact Hrew|].
    unfold RewardModel.forward, instance. cbn. rewrite Htrain. cbn.
    rewrite (project_ok _ _ Hht). cbn. rewrite Hm. cbn.
    unfold reward_returned. destruct return_output; reflexivity.
Qed.

Lemma reward_normalization_eval_only_witness :
  (exists selected,
     Forall3 (selects_last_one [1%Q]) sample_mask (last_hidden_state sample_outputs)
       selected
     /\ RewardModel.forward (instance id_backbone [1%Q] 1 2 false false)
          sample_ids (Some sample_mask) false
        = Ok (reward_returned false selected sample_outputs)
     /\ RewardModel.forward (instance id_backbone [1%Q] 1 2 true false)
          sample_ids (Some sample_mask) false
        = Ok (reward_returned false
                (fmap (M:=list) (fun x => (x - 1) / 2)%Q selected) sample_outputs)
     /\ exists unchanged,
          RewardModel.forward (instance id_backbone [1%Q] 0 1 true false)
            sample_ids (Some sample_mask) false
          = Ok (reward_returned false unchanged sample_outputs)
          /\ Forall2 Qeq unchanged selected)
  /\ (exists reward,
        Forall2 (selects_position [1%Q] (3 - 1)) (last_hidden_state sample_outputs) reward
        /\ RewardModel.forward (instance id_backbone [1%Q] 1 2 true true)
             sample_ids (Some sample_mask) false
           = Ok (reward_returned false reward sample_outputs)).
Proof.
  apply (reward_normalization_eval_only id_backbone [1%Q] 1 2 sample_ids sample_mask
           false sample_outputs sample_outputs 3).
  - reflexivity.
  - reflexivity.
  - repeat constructor.
  - repeat constructor.
  - constructor; [|constructor; [|constructor]];
      (split; [reflexivity|]; split; [reflexivity|]; split; [zero_one|in_list]).
  - repeat constructor.
  - lia.
Defined.

(** C5.  With [normalize_reward] set, the critic returns, in training mode
    and in evaluation mode alike, the map [(v - mean) / std] of the
    per-token values it keeps for the [action_mask]'s number of columns:
    the values are the projections at all positions but the last. *)
Theorem critic_normalization_unconditional
    (bb : Backbone) (w : list Q) (mu sigma : Q) (input_ids am : list (list Z))
    (attention_mask : option (list (list Z))) (return_output : bool)
    (outs : Outputs) (L n : nat) :
  bb true input_ids attention_mask = Ok outs ->
  bb false input_ids attention_mask = Ok outs ->
  hidden_ok w (last_hidden_state outs) ->
  Forall (fun row => length row = L) (last_hidden_state outs) ->
  Torch.size1 am = Z.of_nat n ->
  forall is_training,
    CriticModel.forward (instance bb w mu sigma true is_training)
      input_ids (Some am) attention_mask return_output
    = Ok (critic_returned return_output
            (fmap (M:=list)
               (fun row => fmap (M:=list) (fun v => (v - mu) / sigma)%Q
                             (kept_values L n row))
               (projections w (last_hidden_state outs)))
            outs).
Proof.
  intros Htrain Heval Hhid Hrows Hsize is_training.
  assert (Hbb : bb is_training input_ids attention_mask = Ok outs)
    by (destruct is_training; assumption).
  assert (Hplen : Forall (fun row => length row = L)
                    (projections w (last_hidden_state outs))).
  { unfold projections. rewrite Forall_fmap.
    eapply Forall_impl; [exact Hrows|]. intros row Hrow. cbn.
    rewrite length_fmap. exact Hrow. }
  unfold CriticModel.forward, instance. cbn. rewrite Hbb. cbn.
  rewrite (project_ok _ _ Hhid). cbn. rewrite Hsize.
  assert (Hvalues :
    fmap (M:=list) (Py.slice_from (- Z.of_nat n))
      (fmap (M:=list)
         (fmap (M:=list)
            (standardize
               {| base_model := bb; value_head := w; normalize_reward := true;
                  mean := mu; std := sigma; training := is_training |}))
         (fmap (M:=list) (Py.slice_to (-1)) (projections w (last_hidden_state outs))))
    = fmap (M:=list)
        (fun row => fmap (M:=list) (fun v => (v - mu) / sigma)%Q (kept_values L n row))
        (projections w (last_hidden_state outs))).
  { rewrite <- !list_fmap_compose. apply Forall_fmap_ext.
    eapply Forall_impl; [exact Hplen|]. intros row Hrow. cbn.
    rewrite slice_from_fmap, (kept_values_slices L n row Hrow). reflexivity. }
  cbn. rewrite Hvalues. unfold critic_returned.
  destruct return_output; reflexivity.
Qed.

Lemma critic_normalization_unconditional_witness :
  CriticModel.forward (instance id_backbone [1%Q] 1 2 true true)
    sample_ids (Some [[1]; [1]]%Z) None false
  = Ok (CriticModel.Values [[(inject_Z 20 - 1) / 2]; [(inject_Z 50 - 1) / 2]]%Q)
  /\ CriticModel.forward (instance id_backbone [1%Q] 1 2 true false)
       sample_ids (Some [[1]; [1]]%Z) None false
     = Ok (CriticModel.Values [[(inject_Z 20 - 1) / 2]; [(inject_Z 50 - 1) / 2]]%Q).
Proof.
  pose proof (critic_normalization_unconditional id_backbone [1%Q] 1 2 sample_ids
                [[1]; [1]]%Z None false sample_outputs 3 1
                eq_refl eq_refl
                ltac:(repeat constructor) ltac:(repeat constructor) eq_refl) as H.
  split; [rewrite (H true)|rewrite (H false)]; reflexivity.
Defined.

(** * The buffers hold rounded numbers *)



(** * The fallback, stated on what it resolves *)

Lemma stem_of_split (name stem : string) :
  stem_of name stem ->
  match Py.split "For" name !! Z.to_nat 0 with
  | Some x => Ok x
  | None => Raise IndexError
  end = Ok stem.
Proof.
  intros Hstem.
  assert (H : Py.getitem (Py.split "For" name) 0 = Ok stem).
  { destruct Hstem as [(rest & -> & Hno) | [-> Hno]].
    - apply split_stem, Hno.
    - apply split_whole, Hno. }
  exact H.
Qed.

Lemma dynamic_names_follow_rule
    (c : AutoConfig) (am : gmap string string)
    (module_file name auto_model_name pretrained_model_name : string) :
  auto_map c = Some am ->
  am !! "AutoModelForCausalLM"%string = Some (module_file +:+ "." +:+ name) ->
  no_match_inside "." module_file "" ->
  no_match_inside "." name "" ->
  class_names_rule am name auto_model_name pretrained_model_name ->
  dynamic_names c = Ok (module_file, auto_model_name, pretrained_model_name).
Proof.
  intros Ham Hkey Hmf Hname Hrule.
  unfold dynamic_names, dict_get. rewrite Ham. cbn. rewrite Hkey. cbn.
  rewrite split_dot by assumption.
  destruct Hrule as [(-> & -> & ->) | [(-> & -> & ->) | (Hq & Hi & stem & Hstem & -> & Hauto)]];
    [reflexivity|reflexivity|].
  apply String.eqb_neq in Hq, Hi. rewrite Hq, Hi.
  pose proof (stem_of_split _ _ Hstem) as Hsplit.
  destruct Hauto as [[Hnone ->] | (other & Hsome & Hother & Hbase)].
  - rewrite Hnone. cbn. rewrite Hsplit. cbn. reflexivity.
  - rewrite Hsome. cbn. rewrite split_dot by assumption. cbn.
    rewrite Hsplit. cbn. reflexivity.
Qed.

Lemma from_modelling_file_resolved
    (env : Env) (path model_type : string) (cfg : AutoConfig)
    (module_file auto_model_name pretrained_model_name : string) :
  dynamic_names cfg = Ok (module_file, auto_model_name, pretrained_model_name) ->
  from_modelling_file env path model_type cfg
  = mkM ([EvPrint "Failed to load from AutoModel, construct from modelling file.";
          EvLoggerInfo ("BASE_MODEL_CLASS: " +:+ auto_model_name +:+
                        ", PRETRAINED_MODEL_CLASS: " +:+ pretrained_model_name);
          EvGetClassFromDynamicModule
            (module_file +:+ "." +:+ pretrained_model_name) path]
         ++ match get_class_from_dynamic_module env
                    (module_file +:+ "." +:+ pretrained_model_name) path with
            | Ok _ => [EvGetClassFromDynamicModule
                         (module_file +:+ "." +:+ auto_model_name) path]
            | Raise _ => []
            end)
        (base_pretrained_class ←
           get_class_from_dynamic_module env
             (module_file +:+ "." +:+ pretrained_model_name) path;
         base_class ←
           get_class_from_dynamic_module env
             (module_file +:+ "." +:+ auto_model_name) path;
         make_class env model_type base_pretrained_class base_class).
Proof.
  intros Hdyn. unfold from_modelling_file. rewrite Hdyn.
  unfold mbind, M_bind, tell, lift. cbn.
  destruct (get_class_from_dynamic_module env
              (module_file +:+ "." +:+ pretrained_model_name) path) as [p|e]; cbn;
    [|reflexivity].
  destruct (get_class_from_dynamic_module env
              (module_file +:+ "." +:+ auto_model_name) path) as [b|e]; cbn;
    reflexivity.
Qed.

(** C9.  When the body of the [try] raises, the error is dropped and the
    handler runs: the function prints its diagnostic and resolves the two
    classes from the checkpoint's modelling file.  For a causal-LM entry
    [module.name] of the [auto_map] it asks [get_class_from_dynamic_module]
    for the pretrained class and then for the base class, under the names
    the rule gives (fixed names for QWen and InternLM, otherwise the
    causal-LM suffix stripped), and builds the model class on the two
    classes it gets.  An error of the handler is the error of the function;
    when the handler returns a class, the function goes on to load that
    class's weights. *)
Theorem registry_failure_falls_back
    (env : Env) (model_name_or_path model_type : string) (kw : Kw.t)
    (c0 : AutoConfig) (e : exn) :
  String.eqb model_type "critic" || String.eqb model_type "reward" = true ->
  AutoConfig_from_pretrained env model_name_or_path = Ok c0 ->
  from_registry env model_type
    (configure (Kw.normalize_reward kw) (Kw.use_flash_attention_2 kw) c0) = Raise e ->
  let config := configure (Kw.normalize_reward kw) (Kw.use_flash_attention_2 kw) c0 in
  let handler := from_modelling_file env model_name_or_path model_type config in
  let run := get_llm_for_sequence_regression env model_name_or_path model_type kw in
  resolve_class env model_name_or_path model_type config = handler
  /\ (exists rest,
        trace run
        = EvAutoConfigFromPretrained model_name_or_path
          :: EvPrint "Failed to load from AutoModel, construct from modelling file."
          :: rest)
  /\ (forall e', outcome handler = Raise e' -> outcome run = Raise e')
  /\ (forall cls dschf,
        outcome handler = Ok cls -> zero3 (Kw.ds_config kw) = Ok dschf ->
        EvFromPretrained cls model_name_or_path ∈ trace run)
  /\ (forall am module_file name auto_model_name pretrained_model_name,
        auto_map c0 = Some am ->
        am !! "AutoModelForCausalLM"%string = Some (module_file +:+ "." +:+ name) ->
        no_match_inside "." module_file "" ->
        no_match_inside "." name "" ->
        class_names_rule am name auto_model_name pretrained_model_name ->
        trace handler
        = [EvPrint "Failed to load from AutoModel, construct from modelling file.";
           EvLoggerInfo ("BASE_MODEL_CLASS: " +:+ auto_model_name +:+
                         ", PRETRAINED_MODEL_CLASS: " +:+ pretrained_model_name);
           EvGetClassFromDynamicModule
             (module_file +:+ "." +:+ pretrained_model_name) model_name_or_path]
          ++ match get_class_from_dynamic_module env
                     (module_file +:+ "." +:+ pretrained_model_name)
                     model_name_or_path with
             | Ok _ => [EvGetClassFromDynamicModule
                          (module_file +:+ "." +:+ auto_model_name) model_name_or_path]
             | Raise _ => []
             end
        /\ outcome handler
           = (base_pretrained_class ←
                get_class_from_dynamic_module env
                  (module_file +:+ "." +:+ pretrained_model_name) model_name_or_path;
              base_class ←
                get_class_from_dynamic_module env
                  (module_file +:+ "." +:+ auto_model_name) model_name_or_path;
              _ ← class_statement env base_pretrained_class;
              Ok (if String.eqb model_type "reward"
                  then RewardClass base_pretrained_class base_class
                  else CriticClass base_pretrained_class base_class))).
Proof.
  intros Hmt Hcfg Hreg config handler run.
  assert (Hres : resolve_class env model_name_or_path model_type config = handler).
  { unfold resolve_class. apply (try_except_raise _ _ e); [reflexivity|exact Hreg]. }
  assert (Hrun : run =
    mkM (EvAutoConfigFromPretrained model_name_or_path
           :: trace (handler ≫= load_and_adapt env model_name_or_path kw config))
        (outcome (handler ≫= load_and_adapt env model_name_or_path kw config))).
  { subst run. unfold get_llm_for_sequence_regression. rewrite Hmt, Hcfg.
    rewrite (bind_ok (lift (Ok tt)) _ tt eq_refl). cbn beta.
    rewrite (bind_ok (tell _) _ tt eq_refl). cbn beta.
    rewrite (bind_ok (lift (Ok c0)) _ c0 eq_refl). cbn beta zeta.
    fold config. rewrite Hres. reflexivity. }
  assert (Hhandler : exists rest,
    trace handler
    = EvPrint "Failed to load from AutoModel, construct from modelling file." :: rest).
  { subst handler. unfold from_modelling_file.
    rewrite (bind_ok (tell _) _ tt eq_refl). cbn. eauto. }
  split; [exact Hres|]. split; [|split; [|split]].
  - destruct Hhandler as [rest Hrest]. rewrite Hrun. cbn [trace].
    destruct (outcome handler) as [cls|e'] eqn:Ho.
    + rewrite (bind_ok _ _ cls Ho). cbn [trace]. rewrite Hrest. cbn. eauto.
    + rewrite (bind_raise _ _ e' Ho). cbn [trace]. rewrite Hrest. eauto.
  - intros e' He'. rewrite Hrun. cbn [outcome].
    apply outcome_bind_raise, He'.
  - intros cls dschf Hcls Hz. rewrite Hrun. cbn [trace].
    apply elem_of_cons; right.
    apply elem_of_trace_bind_r with (a := cls); [exact Hcls|].
    unfold load_and_adapt.
    apply elem_of_trace_bind_r with (a := dschf); [exact Hz|].
    apply elem_of_trace_bind_r with (a := tt); [destruct dschf; reflexivity|].
    apply elem_of_trace_bind_l. unfold from_pretrained.
    apply elem_of_trace_bind_l. cbn. apply elem_of_cons; left; reflexivity.
  - intros am mf name an pn Ham Hkey Hmf Hname Hrule.
    assert (Hdyn : dynamic_names config = Ok (mf, an, pn)).
    { apply (dynamic_names_follow_rule config am mf name an pn); assumption. }
    subst handler.
    rewrite (from_modelling_file_resolved env model_name_or_path model_type config
               mf an pn Hdyn).
    cbn [trace outcome]. split; [reflexivity|].
    destruct (get_class_from_dynamic_module env (mf +:+ "." +:+ pn) model_name_or_path)
      as [p|]; cbn; [|reflexivity].
    destruct (get_class_from_dynamic_module env (mf +:+ "." +:+ an) model_name_or_path)
      as [b|]; cbn; [|reflexivity].
    unfold make_class, _get_reward_model, _get_critic_model.
    destruct (String.eqb model_type "reward"); reflexivity.
Qed.

Lemma registry_failure_falls_back_witness :
  from_registry (sample_env 3 (Some baichuan_auto_map) false) "critic"
    (configure false false (sample_config 3 (Some baichuan_auto_map))) = Raise KeyError
  /\ trace (from_modelling_file (sample_env 3 (Some baichuan_auto_map) false)
              "ckpt" "critic"
              (configure false false (sample_config 3 (Some baichuan_auto_map))))
     = [EvPrint "Failed to load from AutoModel, construct from modelling file.";
        EvLoggerInfo "BASE_MODEL_CLASS: BaichuanModel, PRETRAINED_MODEL_CLASS: BaichuanPreTrainedModel";
        EvGetClassFromDynamicModule "modeling_baichuan.BaichuanPreTrainedModel" "ckpt";
        EvGetClassFromDynamicModule "modeling_baichuan.BaichuanModel" "ckpt"]
  /\ outcome (from_modelling_file (sample_env 3 (Some baichuan_auto_map) false)
                "ckpt" "critic"
                (configure false false (sample_config 3 (Some baichuan_auto_map))))
     = Ok (CriticClass "modeling_baichuan.BaichuanPreTrainedModel"
             "modeling_baichuan.BaichuanModel").
Proof.
  split; [reflexivity|].
  refine (proj2 (proj2 (proj2 (proj2
            (registry_failure_falls_back (sample_env 3 (Some baichuan_auto_map) false)
               "ckpt" "critic" (sample_kw false)
               (sample_config 3 (Some baichuan_auto_map)) KeyError
               eq_refl eq_refl eq_refl))))
            baichuan_auto_map "modeling_baichuan" "BaichuanForCausalLM"
            "BaichuanModel" "BaichuanPreTrainedModel" eq_refl _ _ _ _).
  - vm_compute. reflexivity.
  - cbn. tauto.
  - cbn. tauto.
  - right. right. split; [discriminate|]. split; [discriminate|].
    exists "Baichuan"%string. split; [|split; [reflexivity|]].
    + left. exists "CausalLM"%string. split; [reflexivity|]. cbn. tauto.
    + left. split; [vm_compute; reflexivity|reflexivity].
Defined.

(** * The adapter and the order of the calls *)

(** X11.  [get_peft_model] is called only for [lora_rank > 0], and then
    with the given rank and alpha and with the given target modules when
    the list is not empty, otherwise with [find_all_linear_names] of the
    model [from_pretrained] loaded; the returned model carries an adapter
    exactly when [lora_rank > 0], and it is the one passed to
    [get_peft_model]. *)
Theorem adapter_only_for_positive_rank
    (env : Env) (model_name_or_path model_type : string) (kw : Kw.t) :
  let run := get_llm_for_sequence_regression env model_name_or_path model_type kw in
  (forall lora_config,
     EvGetPeftModel lora_config ∈ trace run ->
     (0 < Kw.lora_rank kw)%Z /\
     exists c0 cls loaded,
       AutoConfig_from_pretrained env model_name_or_path = Ok c0 /\
       outcome (resolve_class env model_name_or_path model_type
                  (configure (Kw.normalize_reward kw) (Kw.use_flash_attention_2 kw) c0))
         = Ok cls /\
       outcome (from_pretrained env cls model_name_or_path
                  (configure (Kw.normalize_reward kw) (Kw.use_flash_attention_2 kw) c0))
         = Ok loaded /\
       lora_config
       = {| r := Kw.lora_rank kw;
            lora_alpha_ := Kw.lora_alpha kw;
            target_modules_ :=
              match Kw.target_modules kw with
              | Some (m :: ms) => m :: ms
              | _ => find_all_linear_names env loaded
              end |})
  /\ (forall model,
        outcome run = Ok model ->
        match peft model with
        | Some lora_config =>
            (0 < Kw.lora_rank kw)%Z /\
            EvGetPeftModel lora_config ∈ trace run /\
            exists c0 loaded,
              AutoConfig_from_pretrained env model_name_or_path = Ok c0 /\
              outcome (from_pretrained env (model_class model) model_name_or_path
                         (configure (Kw.normalize_reward kw)
                            (Kw.use_flash_attention_2 kw) c0))
                = Ok loaded /\
              lora_config
              = {| r := Kw.lora_rank kw;
                   lora_alpha_ := Kw.lora_alpha kw;
                   target_modules_ :=
                     match Kw.target_modules kw with
                     | Some (m :: ms) => m :: ms
                     | _ => find_all_linear_names env loaded
                     end |}
        | None => (Kw.lora_rank kw <= 0)%Z
        end).
Proof.
  intros run. subst run. split.
  - intros lc H.
    apply run_trace in H as [H | (c0 & Hc0 & [H | (cls & Hcls & H)])];
      [discriminate| |].
    { apply resolve_class_trace in H as [[H | [[msg H] | [cr H]]] _]; discriminate. }
    apply load_and_adapt_trace in H
      as (dschf & _ & [[H _] | [H | (m0 & Hm0 & [[H _] | [[H Hr] | [_ H]]])]]);
      try discriminate.
    + injection H as ->. split; [exact Hr|].
      exists c0, cls, m0. repeat split; assumption.
    + apply initialize_value_head_trace in H as [[_ [H|H]] | [_ H]]; discriminate.
  - intros model Hok.
    apply run_ok in Hok as (Hmt & c0 & cls & Hc0 & Hcls & Hload).
    apply load_and_adapt_ok in Hload as (dschf & m0 & w & Hz & Hm0 & Hw & ->).
    cbn [peft model_class].
    destruct (Z.ltb_spec 0 (Kw.lora_rank kw)) as [Hr|Hr]; [|exact Hr].
    split; [exact Hr|]. split.
    + rewrite (run_trace_eq _ _ _ _ _ _ Hmt Hc0 Hcls).
      apply elem_of_cons. right. apply elem_of_app. right.
      unfold load_and_adapt.
      apply elem_of_trace_bind_r with (a := dschf); [exact Hz|].
      apply elem_of_trace_bind_r with (a := tt); [destruct dschf; reflexivity|].
      apply elem_of_trace_bind_r with (a := m0); [exact Hm0|].
      match goal with
      | |- _ ∈ trace (?m ≫= _) =>
          destruct (outcome m) as [mc|e] eqn:Hmc;
          [apply elem_of_trace_bind_r with (a := mc); [exact Hmc|]|]
      end.
      2: { destruct (output_router_logits
                       (configure (Kw.normalize_reward kw)
                          (Kw.use_flash_attention_2 kw) c0)); discriminate. }
      apply elem_of_trace_bind_l.
      apply Z.ltb_lt in Hr. rewrite Hr.
      apply elem_of_trace_bind_l. apply list_elem_of_singleton. reflexivity.
    + exists c0, m0. repeat split; assumption.
Qed.

Lemma adapter_only_for_positive_rank_witness :
  exists model,
    outcome (get_llm_for_sequence_regression (sample_stats_env None None)
               "ckpt" "critic" (sample_kw_full 8 (Some []) None false)) = Ok model /\
    exists lora_config,
      peft model = Some lora_config /\
      target_modules_ lora_config = ["q_proj"; "v_proj"]%string /\
      EvGetPeftModel lora_config
        ∈ trace (get_llm_for_sequence_regression (sample_stats_env None None)
                   "ckpt" "critic" (sample_kw_full 8 (Some []) None false)).
Proof.
  eexists. split; [vm_compute; reflexivity|].
  eexists. split; [reflexivity|]. split; [reflexivity|].
  lazymatch goal with
  | |- EvGetPeftModel ?lc ∈ _ =>
      pose proof (proj2 (adapter_only_for_positive_rank (sample_stats_env None None)
                           "ckpt" "critic" (sample_kw_full 8 (Some []) None false))
                    {| module := set_value_head [1; 2; 3]%Q
                                   (instance id_backbone [1; 2; 3]%Q 0 1 true false);
                       model_class := CriticClass "LlamaPreTrainedModel" "LlamaModel";
                       config := set_output_router_logits
                                   (configure true true
                                      {| config_class := "LlamaConfig"; hidden_size := 3;
                                         cfg_normalize_reward := None;
                                         cfg_mean := None; cfg_std := None;
                                         _attn_implementation := None; auto_map := None;
                                         output_router_logits := Some false |});
                       peft := Some lc |}
                    ltac:(vm_compute; reflexivity)) as H
  end.
  exact (proj1 (proj2 H)).
Defined.

(** X15.  [HfDeepSpeedConfig] is created only when [ds_config] is given
    and its [zero_optimization] stage is 3.  Whenever the weights are
    loaded, the calls up to then are, in order: the configuration load, the
    calls of the class resolution (none on the registry path),
    [HfDeepSpeedConfig] for stage 3 and nothing otherwise, and the weight
    load. *)
Theorem deepspeed_config_only_for_stage_3
    (env : Env) (model_name_or_path model_type : string) (kw : Kw.t) :
  let run := get_llm_for_sequence_regression env model_name_or_path model_type kw in
  (EvHfDeepSpeedConfig ∈ trace run ->
   exists d z,
     Kw.ds_config kw = Some d /\ d !! "zero_optimization"%string = Some z /\
     z !! "stage"%string = Some 3%Z)
  /\ (forall cls path,
        EvFromPretrained cls path ∈ trace run ->
        exists c0 rest,
          AutoConfig_from_pretrained env model_name_or_path = Ok c0 /\
          trace run
          = EvAutoConfigFromPretrained model_name_or_path
            :: trace (resolve_class env model_name_or_path model_type
                        (configure (Kw.normalize_reward kw)
                           (Kw.use_flash_attention_2 kw) c0))
            ++ match zero3 (Kw.ds_config kw) with
               | Ok true => [EvHfDeepSpeedConfig]
               | _ => []
               end
            ++ EvFromPretrained cls path :: rest
          /\ Forall (fallback_event model_name_or_path)
               (trace (resolve_class env model_name_or_path model_type
                         (configure (Kw.normalize_reward kw)
                            (Kw.use_flash_attention_2 kw) c0)))
          /\ (is_ok (from_registry env model_type
                       (configure (Kw.normalize_reward kw)
                          (Kw.use_flash_attention_2 kw) c0)) = true ->
              trace (resolve_class env model_name_or_path model_type
                       (configure (Kw.normalize_reward kw)
                          (Kw.use_flash_attention_2 kw) c0)) = [])).
Proof.
  intros run. subst run. split.
  - intros H.
    apply run_trace in H as [H | (c0 & Hc0 & [H | (cls & Hcls & H)])]; [discriminate| |].
    { apply resolve_class_trace in H as [[H | [[msg H] | [cr H]]] _]; discriminate. }
    apply load_and_adapt_trace in H
      as (dschf & Hz & [[_ ->] | [H | (m0 & _ & [[H _] | [[H _] | [_ H]]])]]);
      try discriminate.
    + apply zero3_true, Hz.
    + apply initialize_value_head_trace in H as [[_ [H|H]] | [_ H]]; discriminate.
  - intros cls path H.
    apply weights_loaded_after_resolution in H
      as (-> & Hmt & dschf & Hz & c0 & Hc0 & Hcls).
    destruct (load_and_adapt_trace_eq env model_name_or_path kw
                (configure (Kw.normalize_reward kw) (Kw.use_flash_attention_2 kw) c0)
                cls dschf Hz) as [rest Hrest].
    exists c0, rest. split; [exact Hc0|]. split; [|split].
    + rewrite (run_trace_eq _ _ _ _ _ _ Hmt Hc0 Hcls), Hrest, Hz.
      destruct dschf; reflexivity.
    + apply Forall_forall. intros ev Hev.
      apply resolve_class_trace in Hev as [Hev _]. exact Hev.
    + intros Hreg. unfold resolve_class, try_except.
      destruct (from_registry env model_type
                  (configure (Kw.normalize_reward kw) (Kw.use_flash_attention_2 kw) c0));
        [reflexivity|discriminate].
Qed.

Lemma deepspeed_config_only_for_stage_3_witness :
  exists d z,
    Kw.ds_config (sample_kw_full 0 None (Some zero3_config) false) = Some d /\
    d !! "zero_optimization"%string = Some z /\
    z !! "stage"%string = Some 3%Z.
Proof.
  apply (proj1 (deepspeed_config_only_for_stage_3 (sample_stats_env None None)
                  "ckpt" "reward" (sample_kw_full 0 None (Some zero3_config) false))).
  vm_compute. in_list.
Defined.
